(** * URL-Scrapper: the fetch-and-extract pipeline

    A shallow embedding of [Url_scraper/main.py], [utils/parser.py] and
    [utils/robots.py].  Python objects are modelled as follows.

    - [str] is [string]; the text handled here is ASCII, so [lower],
      [strip] and [capitalize] act on the ASCII letters and on the ASCII
      characters Python's [str.isspace] accepts.
    - An exception is a value of [exn]; a call that may raise returns a
      [Result].  Only subclasses of [Exception] are represented, which is
      what every [except Exception] of the program catches.
    - The libraries the program calls (requests, BeautifulSoup's
      constructor, json, urllib) are parameters of the sections below; the
      tree BeautifulSoup builds is the inductive type [Node]. *)

From Stdlib Require Import ZArith String Ascii List Lia Bool.
From Stdlib Require Import Numbers.DecimalString.
From stdpp Require Import base option list gmap strings.
Import ListNotations.

Set Warnings "-register-all".

Local Open Scope string_scope.
Local Open Scope Z_scope.

(** ** Exceptions *)

Inductive exn :=
| JSONDecodeError
| ValueError
| OverflowError
| AttributeError
| RequestException
| Exception (msg : string).

Inductive Result (A : Type) :=
| Ok (a : A)
| Raise (e : exn).
Arguments Ok {A} a.
Arguments Raise {A} e.

(** ** Python string operations *)

Module Str.

(** Characters for which [str.isspace] holds, below code point 128:
    tab, newline, vertical tab, form feed, carriage return, the four
    separators 0x1c-0x1f and the space. *)
Definition isspace (c : ascii) : bool :=
  let n := nat_of_ascii c in
  ((9 <=? n) && (n <=? 13) || (28 <=? n) && (n <=? 32))%nat.

Definition lower_char (c : ascii) : ascii :=
  let n := nat_of_ascii c in
  if ((65 <=? n) && (n <=? 90))%nat then ascii_of_nat (n + 32) else c.

Definition upper_char (c : ascii) : ascii :=
  let n := nat_of_ascii c in
  if ((97 <=? n) && (n <=? 122))%nat then ascii_of_nat (n - 32) else c.

(** [s.lower()] *)
Fixpoint lower (s : string) : string :=
  match s with
  | EmptyString => EmptyString
  | String c t => String (lower_char c) (lower t)
  end.

(** [s.capitalize()]: first character upper-cased, the rest lower-cased. *)
Definition capitalize (s : string) : string :=
  match s with
  | EmptyString => EmptyString
  | String c t => String (upper_char c) (lower t)
  end.

(** [s.lstrip()] *)
Fixpoint lstrip (s : string) : string :=
  match s with
  | EmptyString => EmptyString
  | String c t => if isspace c then lstrip t else s
  end.

(** [s.rstrip()] *)
Fixpoint rstrip (s : string) : string :=
  match s with
  | EmptyString => EmptyString
  | String c t =>
      match rstrip t with
      | EmptyString => if isspace c then EmptyString else String c EmptyString
      | t' => String c t'
      end
  end.

(** [s.strip()] *)
Definition strip (s : string) : string := rstrip (lstrip s).

(** [needle in hay] *)
Fixpoint contains (needle hay : string) : bool :=
  if String.prefix needle hay then true
  else match hay with
       | EmptyString => false
       | String _ t => contains needle t
       end.

(** [sep.join(parts)] *)
Fixpoint join (sep : string) (parts : list string) : string :=
  match parts with
  | [] => EmptyString
  | [p] => p
  | p :: rest => p ++ sep ++ join sep rest
  end.

(** [s.replace(old, new)] for a non-empty [old]: every non-overlapping
    occurrence, leftmost first.  [skip] counts the characters of a matched
    occurrence still to be dropped. *)
Fixpoint replace_go (old new : string) (skip : nat) (s : string) : string :=
  match s with
  | EmptyString => EmptyString
  | String c t =>
      match skip with
      | S k => replace_go old new k t
      | O =>
          if String.prefix old s
          then new ++ replace_go old new (String.length old - 1) t
          else String c (replace_go old new O t)
      end
  end.

Definition replace (old new s : string) : string := replace_go old new O s.

(** Truthiness of a string: [bool(s)]. *)
Definition truthy (s : string) : bool :=
  match s with EmptyString => false | _ => true end.

(** [a or b] on strings. *)
Definition or_else (a b : string) : string := if truthy a then a else b.

(** [str(n)] for an [int]. *)
Definition of_int (n : Z) : string := NilEmpty.string_of_int (Z.to_int n).

(** [s.split(sep)] for a separator of one character: the pieces between
    the separators, empty pieces included, at least one piece. *)
Fixpoint split (sep : ascii) (s : string) : list string :=
  match s with
  | EmptyString => [EmptyString]
  | String c t =>
      if Ascii.eqb c sep then EmptyString :: split sep t
      else match split sep t with
           | [] => [String c EmptyString]
           | piece :: pieces => String c piece :: pieces
           end
  end.

End Str.

(** ** Data model *)

(** A [requests.Response]: the status code and the decoded body.  Reading
    [response.text] may raise, which [check_blocking] provides for. *)
Record Response := mkResponse {
  status_code : Z;
  text : Result string
}.

(** One call to action, the dict [{"text": t, "href": h}]. *)
Record CTA := mkCTA {
  cta_text : string;
  cta_href : string
}.

(** The dict built by [make_empty] and [extract_structured_data]; [None]
    is an absent field. *)
Record PageRecord := mkPageRecord {
  url : string;
  title : option string;
  h1 : option string;
  meta_description : option string;
  rating : option string;
  review_count : option string;
  pricing : option string;
  ctas : list CTA;
  status : string
}.

(** The tree BeautifulSoup builds with [html.parser].  The [class]
    attribute is kept as the list of its tokens (absent: [None]); every
    other attribute the program reads (itemprop, aria-label, content, name,
    id, type, value, placeholder, href) is a plain string.  A
    [NavigableString] leaf is a piece of text that [get_text] reports. *)
Inductive Node :=
| NavigableString (s : string)
| Tag (name : string) (attrs : gmap string string)
      (class_ : option (list string)) (contents : list Node).

(** What [json.loads] returns.  A float is kept as the text [str] prints
    for it; a dict as its items, keys unique. *)
Inductive JSON :=
| JNull
| JBool (b : bool)
| JInt (n : Z)
| JFloat (repr : string)
| JStr (s : string)
| JList (items : list JSON)
| JDict (items : list (string * JSON)).

(** ** utils/parser.py *)

Module Parser.

Definition _BLOCK_KEYWORDS : list string :=
  [ "captcha"; "blocked"; "access denied"; "unusual traffic";
    "verify you are human"; "bot detected"; "rate limit" ].

Definition _CTA_KEYWORDS : list string :=
  [ "get"; "start"; "try"; "sign"; "buy"; "free"; "demo"; "download";
    "join"; "subscribe"; "add" ].

(** [check_blocking]: the status set first, then the keyword scan of the
    lower-cased body; an exception while reading the body gives [False]. *)
Definition check_blocking (response : Response) : bool :=
  if existsb (Z.eqb (status_code response)) [403; 429; 503] then true
  else
    match text response with
    | Raise _ => false
    | Ok t =>
        let body := Str.lower t in
        existsb (fun k => Str.contains k body) _BLOCK_KEYWORDS
    end.

(** *** Tree access *)

Definition tag_name (e : Node) : string :=
  match e with Tag n _ _ _ => n | NavigableString _ => "" end.

(** [e.get(key)] for a string-valued attribute. *)
Definition get (e : Node) (key : string) : option string :=
  match e with Tag _ a _ _ => a !! key | NavigableString _ => None end.

(** [e.get("class")] *)
Definition get_class (e : Node) : option (list string) :=
  match e with Tag _ _ c _ => c | NavigableString _ => None end.

Definition tag_contents (e : Node) : list Node :=
  match e with Tag _ _ _ cs => cs | NavigableString _ => [] end.

(** The tags of a subtree in document order, the root first. *)
Fixpoint tags_in (n : Node) : list Node :=
  match n with
  | NavigableString _ => []
  | Tag _ _ _ cs => n :: flat_map tags_in cs
  end.

(** The text leaves of a subtree in document order. *)
Fixpoint strings_in (n : Node) : list string :=
  match n with
  | NavigableString s => [s]
  | Tag _ _ _ cs => flat_map strings_in cs
  end.

(** A parsed document is the list of its top-level nodes. *)
Definition Soup := list Node.

(** Every tag of the document, [soup.find_all(True)]. *)
Definition all_tags (soup : Soup) : list Node := flat_map tags_in soup.

(** [soup.find_all(pred)] and [soup.find(pred)] for a test on tags. *)
Definition find_all (soup : Soup) (p : Node -> bool) : list Node :=
  List.filter p (all_tags soup).

Definition find (soup : Soup) (p : Node -> bool) : option Node :=
  List.hd_error (find_all soup p).

Definition named (n : string) (e : Node) : bool := String.eqb (tag_name e) n.

Definition attr_is (key value : string) (e : Node) : bool :=
  match get e key with
  | Some v => String.eqb v value
  | None => false
  end.

(** [e.get_text(sep, strip=True)]: the stripped, non-empty text leaves
    joined by [sep]. *)
Definition get_text (sep : string) (e : Node) : string :=
  Str.join sep (List.filter Str.truthy (List.map Str.strip (strings_in e))).

(** [e.string]: the only child when it is a text leaf, looked for through
    single-child tags. *)
Fixpoint tag_string (e : Node) : option string :=
  match e with
  | NavigableString s => Some s
  | Tag _ _ _ [c] => tag_string c
  | Tag _ _ _ _ => None
  end.

(** [get_text_clean]: [""] for [None]. *)
Definition get_text_clean (element : option Node) : string :=
  match element with
  | None => ""
  | Some e => get_text " " e
  end.

(** [t or None] *)
Definition or_None (t : string) : option string :=
  if Str.truthy t then Some t else None.

(** *** Embedded JSON-LD *)

Definition is_dict (j : JSON) : bool :=
  match j with JDict _ => true | _ => false end.

(** [d[k]] when [k in d], on the items of a dict. *)
Fixpoint lookup_key (k : string) (items : list (string * JSON)) : option JSON :=
  match items with
  | [] => None
  | (k', v) :: rest => if String.eqb k' k then Some v else lookup_key k rest
  end.

(** The inner walk of [read_json_data]: follows [path] from [curr];
    [None] is [valid = False]. *)
Fixpoint walk (curr : JSON) (path : list string) : option JSON :=
  match path with
  | [] => Some curr
  | k :: rest =>
      match curr with
      | JDict items =>
          match lookup_key k items with
          | Some v => walk v rest
          | None => None
          end
      | _ => None
      end
  end.

(** [str(curr)] when [curr] is a [str], an [int] (a [bool] is one) or a
    [float]; [None] otherwise. *)
Definition scalar_str (curr : JSON) : option string :=
  match curr with
  | JStr s => Some s
  | JInt n => Some (Str.of_int n)
  | JBool b => Some (if b then "True" else "False")
  | JFloat r => Some r
  | JNull | JList _ | JDict _ => None
  end.

(** What one object contributes to [read_json_data]. *)
Definition read_one (o : JSON) (path : list string) : option string :=
  match walk o path with
  | Some curr => scalar_str curr
  | None => None
  end.

(** [read_json_data]: the first object that holds a scalar at [path]. *)
Fixpoint read_json_data (objs : list JSON) (path : list string) : option string :=
  match objs with
  | [] => None
  | o :: rest =>
      match read_one o path with
      | Some s => Some s
      | None => read_json_data rest path
      end
  end.

(** *** Field extractors

    Each extractor of the source wraps its body in [try]/[except Exception]
    and answers [None] (or what it has collected) when something raises.  On
    the tree above only the two library calls can raise: [json.loads] and
    [urljoin]. *)

Section Extractors.

(** [json.loads]; [Raise JSONDecodeError] is the malformed-block case. *)
Variable json_loads : string -> Result JSON.

(** [urllib.parse.urljoin]; it raises [ValueError] on some malformed URLs. *)
Variable urljoin : string -> string -> Result string.

(** The dicts among [objs], in order: the [isinstance(obj, dict)] loops. *)
Definition dicts_of (objs : list JSON) : list JSON := List.filter is_dict objs.

(** What a parsed block appends to [items]. *)
Definition items_of (parsed : JSON) : list JSON :=
  match parsed with
  | JList objs => dicts_of objs
  | JDict kvs =>
      match lookup_key "@graph" kvs with
      | Some (JList objs) => dicts_of objs ++ [parsed]
      | _ => [parsed]
      end
  | _ => []
  end.

(** The loop of [get_json_ld] over the script tags.  A block that is
    empty or does not decode is skipped; any other exception leaves the
    loop through the outer handler, which returns the items so far. *)
Fixpoint get_json_ld_loop (scripts : list Node) : list JSON :=
  match scripts with
  | [] => []
  | s :: rest =>
      let raw :=
        match tag_string s with
        | Some x => if Str.truthy x then x else get_text "" s
        | None => get_text "" s
        end in
      if negb (Str.truthy raw) then get_json_ld_loop rest
      else
        match json_loads raw with
        | Raise JSONDecodeError => get_json_ld_loop rest
        | Raise _ => []
        | Ok parsed => items_of parsed ++ get_json_ld_loop rest
        end
  end.

Definition get_json_ld (soup : Soup) : list JSON :=
  get_json_ld_loop
    (find_all soup (fun e => named "script" e && attr_is "type" "application/ld+json" e)).

Definition find_title (soup : Soup) : option string :=
  or_None (get_text_clean (find soup (named "title"))).

Definition find_h1 (soup : Soup) : option string :=
  match find_all soup (named "h1") with
  | [] => None
  | t :: _ => or_None (get_text_clean (Some t))
  end.

Definition find_meta (soup : Soup) : option string :=
  match find soup (fun e => named "meta" e && attr_is "name" "description" e) with
  | Some m =>
      match get m "content" with
      | Some c => if Str.truthy c then or_None (Str.strip c) else None
      | None => None
      end
  | None => None
  end.

(** [get_text_clean(match) or str(match.get("content", "")).strip()] *)
Definition text_or_content (m : Node) : string :=
  Str.or_else (get_text_clean (Some m)) (Str.strip (default "" (get m "content"))).

(** [" ".join(cls_list).lower()] of a tag that has a class attribute. *)
Definition combined_class (e : Node) : string :=
  Str.lower (Str.join " " (default [] (get_class e))).

Definition has_class (e : Node) : bool :=
  match get_class e with Some _ => true | None => false end.

(** The class-matching loop of [get_metric]. *)
Fixpoint class_scan (type : string) (keys : list string) (es : list Node)
  : option string :=
  match es with
  | [] => None
  | e :: rest =>
      let combined := combined_class e in
      if existsb (fun k => Str.contains k combined) keys then
        let v := get_text_clean (Some e) in
        if negb (Str.truthy v) && String.eqb type "rating"
        then Some (Str.capitalize (Str.strip (Str.replace "star-rating" "" combined)))
        else if Str.truthy v then Some v
        else class_scan type keys rest
      else class_scan type keys rest
  end.

(** The test of the aria-label search: the label, lower-cased, contains
    [type]. *)
Definition aria_matches (type : string) (e : Node) : bool :=
  match get e "aria-label" with
  | Some x => Str.contains type (Str.lower x)
  | None => false
  end.

Definition metric_keys (type : string) : list string :=
  if String.eqb type "rating" then ["rating"; "stars"; "score"] else ["review"; "count"].

Definition metric_item_prop (type : string) : string :=
  if String.eqb type "rating" then "ratingValue" else "reviewCount".

(** [get_metric]: itemprop, then aria-label, then the class scan. *)
Definition get_metric (soup : Soup) (type : string) : option string :=
  let by_class := class_scan type (metric_keys type) (find_all soup has_class) in
  let by_aria :=
    match find soup (aria_matches type) with
    | Some m =>
        let v := get_text_clean (Some m) in
        if Str.truthy v then Some v else by_class
    | None => by_class
    end in
  match find soup (attr_is "itemprop" (metric_item_prop type)) with
  | Some m =>
      let v := text_or_content m in
      if Str.truthy v then Some v else by_aria
  | None => by_aria
  end.

(** The inner loop of [get_price] over the tags of one kind. *)
Fixpoint price_scan (es : list Node) : option string :=
  match es with
  | [] => None
  | e :: rest =>
      let classes := match get_class e with
                     | Some l => Str.join " " l
                     | None => ""
                     end in
      let eid := default "" (get e "id") in
      let both := Str.lower (classes ++ " " ++ eid) in
      if existsb (fun k => Str.contains k both) ["price"; "pricing"; "plan"; "cost"]
      then
        let v := get_text_clean (Some e) in
        if Str.truthy v then Some v else price_scan rest
      else price_scan rest
  end.

(** The outer loop of [get_price] over the tag kinds. *)
Fixpoint price_kinds (soup : Soup) (kinds : list string) : option string :=
  match kinds with
  | [] => None
  | t :: rest =>
      match price_scan (find_all soup (named t)) with
      | Some v => Some v
      | None => price_kinds soup rest
      end
  end.

Definition get_price (soup : Soup) : option string :=
  let scan :=
    price_kinds soup ["div"; "span"; "p"; "li"; "section"; "a"; "button"] in
  match find soup (attr_is "itemprop" "price") with
  | Some m =>
      let v := text_or_content m in
      if Str.truthy v then Some v else scan
  | None => scan
  end.

(** The body of the loop of [get_btns] for one element: [Ok None] is
    [continue] (or no keyword), [Ok (Some c)] appends [c], [Raise] leaves
    the loop. *)
Definition cta_of (url : string) (e : Node) : Result (option CTA) :=
  let is_input := String.eqb (tag_name e) "input" in
  let t :=
    if is_input
    then Str.strip (Str.or_else (default "" (get e "value"))
                      (Str.or_else (default "" (get e "placeholder")) ""))
    else get_text_clean (Some e) in
  let type_ok :=
    match get e "type" with
    | Some ty => String.eqb ty "submit" || String.eqb ty "button"
    | None => false
    end in
  if is_input && negb type_ok && negb (Str.truthy t) then Ok None
  else if negb (Str.truthy t) then Ok None
  else
    let href :=
      if String.eqb (tag_name e) "a" then
        let h := Str.strip (default "" (get e "href")) in
        if Str.truthy h then urljoin url h else Ok h
      else Ok "" in
    match href with
    | Raise err => Raise err
    | Ok h =>
        let tt := Str.lower t in
        let hh := Str.lower h in
        if existsb (fun k => Str.contains k tt || Str.contains k hh) _CTA_KEYWORDS
        then Ok (Some (mkCTA t h))
        else Ok None
    end.

Fixpoint get_btns_loop (url : string) (es : list Node) : list CTA :=
  match es with
  | [] => []
  | e :: rest =>
      match cta_of url e with
      | Raise _ => []
      | Ok None => get_btns_loop url rest
      | Ok (Some c) => c :: get_btns_loop url rest
      end
  end.

Definition is_btn_tag (e : Node) : bool :=
  named "a" e || named "button" e || named "input" e.

Definition get_btns (soup : Soup) (url : string) : list CTA :=
  get_btns_loop url (find_all soup is_btn_tag).

(** [a if a is not None else b] *)
Definition if_None {A} (a b : option A) : option A :=
  match a with Some _ => a | None => b end.

(** [BeautifulSoup(html, "html.parser")] *)
Variable BeautifulSoup : string -> Result Soup.

Definition extract_structured_data (url html : string) : PageRecord :=
  match BeautifulSoup html with
  | Raise _ =>
      {| url := url; title := None; h1 := None; meta_description := None;
         rating := None; review_count := None; pricing := None; ctas := [];
         status := "failed" |}
  | Ok soup =>
      let objs := get_json_ld soup in
      {| url := url;
         title := find_title soup;
         h1 := find_h1 soup;
         meta_description := find_meta soup;
         rating :=
           if_None (get_metric soup "rating")
             (read_json_data objs ["aggregateRating"; "ratingValue"]);
         review_count :=
           if_None
             (if_None (get_metric soup "review_count")
                (read_json_data objs ["aggregateRating"; "reviewCount"]))
             (read_json_data objs ["aggregateRating"; "ratingCount"]);
         pricing := if_None (get_price soup) (read_json_data objs ["offers"; "price"]);
         ctas := get_btns soup url;
         status := "ok" |}
  end.

End Extractors.

End Parser.

(** ** The world outside the program

    The effects of a run are recorded in a trace, oldest event first.  The
    answers of the network are parameters indexed by the number of earlier
    calls of the same kind, so that successive attempts may be answered
    differently. *)

Inductive Event :=
| Get (url : string)          (* requests.get(url, ...) *)
| Sleep (seconds : Z)         (* time.sleep(wait * 2**i), the backoff *)
| Pause                       (* time.sleep(random.uniform(2, 5)) *)
| RobotsRead (robots_url : string).   (* RobotFileParser.read() *)

(** A [RobotFileParser] that has read its file, seen through the one
    method the program calls on it. *)
Record RobotFileParser := mkRobotFileParser {
  can_fetch : string -> string -> Result bool
}.

Record World := mkWorld {
  trace : list Event;
  _ROBOTS_CACHE : gmap string RobotFileParser
}.

Definition log (ev : Event) (w : World) : World :=
  {| trace := trace w ++ [ev]; _ROBOTS_CACHE := _ROBOTS_CACHE w |}.

Definition is_get (ev : Event) : bool :=
  match ev with Get _ => true | _ => false end.

Definition is_robots_read (ev : Event) : bool :=
  match ev with RobotsRead _ => true | _ => false end.

(** Number of [requests.get] calls made so far. *)
Definition gets (w : World) : nat := length (List.filter is_get (trace w)).

(** Number of robots.txt reads made so far. *)
Definition robots_reads (w : World) : nat :=
  length (List.filter is_robots_read (trace w)).

(** The largest whole number of seconds whose count of nanoseconds fits
    the signed 64-bit integer [time.sleep] converts its argument to. *)
Definition SLEEP_OVERFLOW : Z := 9223372036.

(** A length that the sleep of every platform accepts.  Below
    [SLEEP_OVERFLOW] a platform may still refuse a length (before
    Python 3.11 Windows counts milliseconds in 32 bits, which ends at
    4294967 seconds, and a deadline past the range of the clock is an
    [OSError]); the backoff theorems stay at or below this length. *)
Definition SLEEP_SAFE : Z := 4294967.

(** [time.sleep(seconds)] for an [int]: a negative length raises
    [ValueError], a length that does not fit the 64-bit count of
    nanoseconds raises [OverflowError]. *)
Definition time_sleep (seconds : Z) (w : World) : Result World :=
  if seconds <? 0 then Raise ValueError
  else if SLEEP_OVERFLOW <? seconds then Raise OverflowError
  else Ok (log (Sleep seconds) w).

(** ** utils/robots.py *)

Module Robots.

Section Robots.

(** [urlparse(url)], of which the scheme and the netloc are used. *)
Variable urlparse : string -> Result (string * string).

(** What [parser.read()] does for a robots.txt address on the n-th read
    of the run: it raises, or leaves a parser that can be queried. *)
Variable robots_read : string -> nat -> Result RobotFileParser.

Definition _get_base_domain (url : string) : Result string :=
  match urlparse url with
  | Ok (scheme, netloc) => Ok (scheme ++ "://" ++ netloc)
  | Raise e => Raise e
  end.

Definition _get_robot_parser (base_domain : string) (w : World)
  : option RobotFileParser * World :=
  match _ROBOTS_CACHE w !! base_domain with
  | Some p => (Some p, w)
  | None =>
      let robots_url := base_domain ++ "/robots.txt" in
      let w' := log (RobotsRead robots_url) w in
      match robots_read robots_url (robots_reads w) with
      | Ok parser =>
          (Some parser,
           {| trace := trace w';
              _ROBOTS_CACHE := <[base_domain := parser]> (_ROBOTS_CACHE w') |})
      | Raise _ => (None, w')
      end
  end.

Definition disallowed_reason (agent : string) : string :=
  "Robots.txt disallowed access for agent '" ++ agent ++ "'".

Definition is_allowed (url agent : string) (w : World) : (bool * string) * World :=
  match _get_base_domain url with
  | Raise _ => ((true, ""), w)
  | Ok base =>
      match _get_robot_parser base w with
      | (None, w') => ((true, ""), w')
      | (Some p, w') =>
          match can_fetch p agent url with
          | Raise _ => ((true, ""), w')
          | Ok true => ((true, ""), w')
          | Ok false => ((false, disallowed_reason agent), w')
          end
      end
  end.

End Robots.

End Robots.

(** ** urllib.robotparser.RobotFileParser.read

    Modelled from the Python standard library (CPython 3.12,
    [Lib/urllib/robotparser.py]), which is not part of the repository:
    what [read] leaves in the parser for each way the request for
    robots.txt can end.  An HTTP error answer does not make [read] raise:
    401 and 403 set [disallow_all], the other 4xx set [allow_all], and any
    other status sets nothing, so that [last_checked] stays 0 and
    [can_fetch] answers [False]. *)

Module Robotparser.

(** How [urlopen(robots_url)] and the reading of the body end. *)
Inductive Fetch :=
| TransportError (e : exn)    (* URLError, timeout, undecodable body: [read] raises *)
| HTTPError (code : Z)        (* the server answers with an error status *)
| Body (rules : string -> string -> Result bool).
                              (* the file is read and parsed; [rules] is
                                 [can_fetch] on its entries *)

(** [can_fetch] of a parser whose request ended with the HTTP error
    [code]. *)
Definition can_fetch_after_error (code : Z) : bool :=
  if (code =? 401) || (code =? 403) then false
  else (400 <=? code) && (code <? 500).

Definition read (urlopen : string -> nat -> Fetch) (robots_url : string) (n : nat)
  : Result RobotFileParser :=
  match urlopen robots_url n with
  | TransportError e => Raise e
  | HTTPError code =>
      Ok (mkRobotFileParser (fun _ _ => Ok (can_fetch_after_error code)))
  | Body rules => Ok (mkRobotFileParser rules)
  end.

End Robotparser.

(** ** main.py *)

Module Main.

(** What [fetch_url_data] hands back when it is not [None]: the response
    with the [_was_blocked] attribute it has set on it. *)
Record Fetched := mkFetched {
  response : Response;
  _was_blocked : bool
}.

Definition make_empty (url status : string) : PageRecord :=
  {| url := url; title := None; h1 := None; meta_description := None;
     rating := None; review_count := None; pricing := None; ctas := [];
     status := status |}.

Definition retry_codes : list Z := [429; 500; 502; 503; 504].

Section Pipeline.

Variable urlparse : string -> Result (string * string).
Variable robots_read : string -> nat -> Result RobotFileParser.

(** [requests.get(url, ...)] on the n-th request of the run: a response,
    or a transport error. *)
Variable requests_get : string -> nat -> Result Response.

Variable json_loads : string -> Result JSON.
Variable urljoin : string -> string -> Result string.
Variable BeautifulSoup : string -> Result Parser.Soup.

(** How one iteration of the loop of [fetch_url_data] ends. *)
Inductive Step :=
| Continue
| Return (r : Result (option Fetched)).

(** The [except Exception] handler of the loop, with what follows it.  A
    [time.sleep] that raises here is not caught by anything in the
    function. *)
Definition on_error (tries wait i : Z) (w : World) : Step * World :=
  if i <? tries then
    match time_sleep (wait * 2 ^ i) w with
    | Ok w' => (Continue, w')
    | Raise e => (Return (Raise e), w)
    end
  else (Return (Ok None), w).

(** One iteration of the loop of [fetch_url_data], attempt [i]. *)
Definition attempt (url : string) (tries wait i : Z) (w : World) : Step * World :=
  let w1 := log (Get url) w in
  match requests_get url (gets w) with
  | Raise _ => on_error tries wait i w1
  | Ok response =>
      let blocked := Parser.check_blocking response in
      if blocked then (Return (Ok (Some (mkFetched response blocked))), w1)
      else if status_code response =? 403
      then (Return (Ok (Some (mkFetched response blocked))), w1)
      else if existsb (Z.eqb (status_code response)) retry_codes then
        if i <? tries then
          match time_sleep (wait * 2 ^ i) w1 with
          | Ok w2 => (Continue, w2)
          | Raise _ => on_error tries wait i w1
          end
        else (Return (Ok None), w1)
      else if status_code response >=? 400 then (Return (Ok None), w1)
      else (Return (Ok (Some (mkFetched response blocked))), w1)
  end.

(** The loop [for i in range(tries + 1)], with [n] iterations left. *)
Fixpoint fetch_loop (url : string) (tries wait : Z) (n : nat) (i : Z) (w : World)
  : Result (option Fetched) * World :=
  match n with
  | O => (Ok None, w)
  | S n' =>
      match attempt url tries wait i w with
      | (Continue, w') => fetch_loop url tries wait n' (i + 1) w'
      | (Return r, w') => (r, w')
      end
  end.

Definition fetch_url_data (url : string) (tries wait : Z) (w : World)
  : Result (option Fetched) * World :=
  fetch_loop url tries wait (Z.to_nat (tries + 1)) 0 w.

(** The body of the [try] of [start_scraping] for one URL: the record to
    append, or the exception that reaches the handler. *)
Definition process_url (url : string) (w : World) : Result PageRecord * World :=
  match Robots.is_allowed urlparse robots_read url "scraper_project/1.0" w with
  | ((false, _), w1) => (Ok (make_empty url "skipped"), w1)
  | ((true, _), w1) =>
      let w2 := log Pause w1 in
      match fetch_url_data url 3 2 w2 with
      | (Raise e, w3) => (Raise e, w3)
      | (Ok None, w3) => (Ok (make_empty url "failed"), w3)
      | (Ok (Some resp), w3) =>
          if _was_blocked resp then (Ok (make_empty url "blocked"), w3)
          else if status_code (response resp) >=? 400
          then (Ok (make_empty url "failed"), w3)
          else
            match text (response resp) with
            | Raise e => (Raise e, w3)
            | Ok html =>
                (Ok (Parser.extract_structured_data json_loads urljoin
                       BeautifulSoup url html), w3)
            end
      end
  end.

(** One turn of the loop of [start_scraping]: the record appended for
    [url], the handler's failed record when the body raised. *)
Definition scrape_one (url : string) (w : World) : PageRecord * World :=
  match process_url url w with
  | (Ok r, w') => (r, w')
  | (Raise _, w') => (make_empty url "failed", w')
  end.

Fixpoint start_scraping (urls : list string) (w : World) : list PageRecord * World :=
  match urls with
  | [] => ([], w)
  | url :: rest =>
      let '(r, w1) := scrape_one url w in
      let '(rs, w2) := start_scraping rest w1 in
      (r :: rs, w2)
  end.

End Pipeline.

Definition DEFAULT_URLS : list string := ["https://theresanaiforthat.com/"].

(** [[x.strip() for x in xs if x.strip()]] *)
Definition stripped_nonblank (xs : list string) : list string :=
  List.map Str.strip (List.filter (fun x => Str.truthy (Str.strip x)) xs).

(** [get_urls]: [argv] is [sys.argv[1:]], [input] what the prompt returns
    (it may raise, for instance at end of input); the prompt is only
    consulted when the command line gives nothing. *)
Definition get_urls (argv : list string) (input : Result string) : list string :=
  match stripped_nonblank argv with
  | (_ :: _) as cli_urls => cli_urls
  | [] =>
      match input with
      | Raise _ => DEFAULT_URLS
      | Ok line =>
          let user_input := Str.strip line in
          if Str.truthy user_input then
            match stripped_nonblank (Str.split "," user_input) with
            | (_ :: _) as input_urls => input_urls
            | [] => DEFAULT_URLS
            end
          else DEFAULT_URLS
      end
  end.

(** The row [save_output_csv] builds for one record: an absent field
    becomes the empty string, the CTA list its length. *)
Record CsvRow := mkCsvRow {
  row_url : string;
  row_title : string;
  row_h1 : string;
  row_meta_description : string;
  row_rating : string;
  row_review_count : string;
  row_pricing : string;
  row_ctas_count : nat;
  row_status : string
}.

Definition csv_row (item : PageRecord) : CsvRow :=
  {| row_url := Str.or_else (url item) "";
     row_title := default "" (title item);
     row_h1 := default "" (h1 item);
     row_meta_description := default "" (meta_description item);
     row_rating := default "" (rating item);
     row_review_count := default "" (review_count item);
     row_pricing := default "" (pricing item);
     row_ctas_count := length (ctas item);
     row_status := Str.or_else (status item) "" |}.

(** The rows [save_output_csv] hands to [writer.writerow], in order. *)
Definition csv_rows (data : list PageRecord) : list CsvRow := List.map csv_row data.

End Main.

(** ** urllib.parse.urljoin

    Modelled from the Python standard library (CPython 3.12,
    [Lib/urllib/parse.py]), which is not part of the repository: the
    cleaning and splitting of a URL into scheme, netloc, path, params,
    query and fragment, and the reference resolution of RFC 3986.  A netloc
    with one bracket and not the other raises [ValueError], as in the
    library.  Left out: the validation of the host between two matching
    brackets (an IPv6 literal), for which the library may raise too, and
    the check of a netloc that is not ASCII.  The theorems of this file
    take [urljoin] as a parameter; this model only answers for the
    references of the sample pages. *)

Module Urllib.

Definition uses_relative : list string :=
  [ ""; "ftp"; "http"; "gopher"; "nntp"; "imap"; "wais"; "file"; "https";
    "shttp"; "mms"; "prospero"; "rtsp"; "rtsps"; "rtspu"; "sftp"; "svn";
    "svn+ssh"; "ws"; "wss" ].

Definition uses_netloc : list string :=
  [ ""; "ftp"; "http"; "gopher"; "nntp"; "telnet"; "imap"; "wais"; "file";
    "mms"; "https"; "shttp"; "snews"; "prospero"; "rtsp"; "rtsps"; "rtspu";
    "rsync"; "svn"; "svn+ssh"; "sftp"; "nfs"; "git"; "git+ssh"; "ws"; "wss";
    "itms-services" ].

Definition mem (s : string) (l : list string) : bool := existsb (String.eqb s) l.

Definition isalpha (c : ascii) : bool :=
  let n := nat_of_ascii c in
  ((65 <=? n) && (n <=? 90) || (97 <=? n) && (n <=? 122))%nat.

(** Membership in [scheme_chars]: letters, digits, [+], [-] and [.]. *)
Definition scheme_char (c : ascii) : bool :=
  let n := nat_of_ascii c in
  isalpha c || ((48 <=? n) && (n <=? 57))%nat
  || Ascii.eqb c "+" || Ascii.eqb c "-" || Ascii.eqb c ".".

(** [s.partition(c)] on the first character satisfying [p]: the text
    before it and, when there is one, the text from it on. *)
Fixpoint break_at (p : ascii -> bool) (s : string) : string * option string :=
  match s with
  | EmptyString => (EmptyString, None)
  | String c t =>
      if p c then (EmptyString, Some s)
      else let '(a, b) := break_at p t in (String c a, b)
  end.

Definition tail (s : string) : string :=
  match s with EmptyString => EmptyString | String _ t => t end.

Fixpoint all_chars (p : ascii -> bool) (s : string) : bool :=
  match s with
  | EmptyString => true
  | String c t => p c && all_chars p t
  end.

(** The scheme test of [urlsplit]: a colon not in first place, before it
    only scheme characters, the first one a letter. *)
Definition split_scheme (default_scheme url : string) : string * string :=
  match break_at (Ascii.eqb ":") url with
  | (String c pre, Some rest) =>
      if isalpha c && all_chars scheme_char (String c pre)
      then (Str.lower (String c pre), tail rest)
      else (default_scheme, url)
  | _ => (default_scheme, url)
  end.

Definition uses_params : list string :=
  [ ""; "ftp"; "hdl"; "prospero"; "http"; "imap"; "https"; "shttp"; "rtsp";
    "rtsps"; "rtspu"; "sip"; "sips"; "mms"; "sftp"; "tel" ].

(** [url.lstrip(_WHATWG_C0_CONTROL_OR_SPACE)]: the leading characters up
    to the space are dropped. *)
Fixpoint lstrip_c0 (s : string) : string :=
  match s with
  | EmptyString => EmptyString
  | String c t => if (nat_of_ascii c <=? 32)%nat then lstrip_c0 t else s
  end.

(** The removal of tab, carriage return and newline. *)
Fixpoint remove_unsafe (s : string) : string :=
  match s with
  | EmptyString => EmptyString
  | String c t =>
      let n := nat_of_ascii c in
      if ((n =? 9) || (n =? 10) || (n =? 13))%nat then remove_unsafe t
      else String c (remove_unsafe t)
  end.

Fixpoint has_char (c : ascii) (s : string) : bool :=
  match s with
  | EmptyString => false
  | String a t => Ascii.eqb a c || has_char c t
  end.

Record ParseResult := mkParse {
  scheme : string;
  netloc : string;
  path : string;
  params : string;
  query : string;
  fragment : string
}.

(** [_splitparams]: the path is cut at the first [;] of its last
    segment. *)
Fixpoint splitparams (url : string) : string * option string :=
  match url with
  | EmptyString => (EmptyString, None)
  | String c t =>
      if has_char "/" t || negb (Ascii.eqb c ";") then
        let '(a, b) := splitparams t in (String c a, b)
      else (EmptyString, Some t)
  end.

(** [urlparse(url, scheme)]: [urlsplit], then the params of the schemes
    that have them.  The default scheme is [""] or a parsed scheme, which
    the cleaning leaves as it is. *)
Definition urlparse (url default_scheme : string) : Result ParseResult :=
  let url0 := remove_unsafe (lstrip_c0 url) in
  let '(sch, url1) := split_scheme default_scheme url0 in
  let '(loc, url2) :=
    if String.prefix "//" url1 then
      let '(a, b) :=
        break_at (fun c => Ascii.eqb c "/" || Ascii.eqb c "?" || Ascii.eqb c "#")
          (tail (tail url1)) in
      (a, default "" b)
    else ("", url1) in
  if xorb (has_char "[" loc) (has_char "]" loc) then Raise ValueError
  else
    let '(url3, frag) :=
      match break_at (Ascii.eqb "#") url2 with
      | (a, Some b) => (a, tail b)
      | (a, None) => (a, "")
      end in
    let '(url4, qry) :=
      match break_at (Ascii.eqb "?") url3 with
      | (a, Some b) => (a, tail b)
      | (a, None) => (a, "")
      end in
    let '(url5, prm) :=
      if mem sch uses_params && has_char ";" url4 then
        match splitparams url4 with
        | (a, Some b) => (a, b)
        | (a, None) => (a, "")
        end
      else (url4, "") in
    Ok (mkParse sch loc url5 prm qry frag).

(** [urlunparse] *)
Definition urlunparse (r : ParseResult) : string :=
  let url := if Str.truthy (params r) then path r ++ ";" ++ params r else path r in
  let url :=
    if Str.truthy (netloc r)
       || (Str.truthy (scheme r) && mem (scheme r) uses_netloc
           && negb (String.prefix "//" url))
    then
      let url := if Str.truthy url && negb (String.prefix "/" url)
                 then "/" ++ url else url in
      "//" ++ netloc r ++ url
    else url in
  let url := if Str.truthy (scheme r) then scheme r ++ ":" ++ url else url in
  let url := if Str.truthy (query r) then url ++ "?" ++ query r else url in
  if Str.truthy (fragment r) then url ++ "#" ++ fragment r else url.

(** [s.split("/")] *)
Fixpoint split_slash (s : string) : list string :=
  match s with
  | EmptyString => [EmptyString]
  | String c t =>
      if Ascii.eqb c "/" then EmptyString :: split_slash t
      else match split_slash t with
           | [] => [String c EmptyString]
           | seg :: segs => String c seg :: segs
           end
  end.

(** [segments[1:-1] = filter(None, segments[1:-1])] *)
Definition squeeze_middle (segments : list string) : list string :=
  match segments with
  | first :: rest =>
      match List.rev rest with
      | last :: mid_rev => first :: List.filter Str.truthy (List.rev mid_rev) ++ [last]
      | [] => segments
      end
  | [] => []
  end.

(** The loop over the segments: [..] pops, [.] is skipped. *)
Fixpoint resolve (resolved_path segments : list string) : list string :=
  match segments with
  | [] => resolved_path
  | seg :: rest =>
      if String.eqb seg ".." then resolve (List.removelast resolved_path) rest
      else if String.eqb seg "." then resolve resolved_path rest
      else resolve (resolved_path ++ [seg]) rest
  end.

Definition urljoin (base url : string) : Result string :=
  if negb (Str.truthy base) then Ok url
  else if negb (Str.truthy url) then Ok base
  else
    match urlparse base "" with
    | Raise e => Raise e
    | Ok b =>
        match urlparse url (scheme b) with
        | Raise e => Raise e
        | Ok u =>
            if negb (String.eqb (scheme u) (scheme b))
               || negb (mem (scheme u) uses_relative)
            then Ok url
            else if mem (scheme u) uses_netloc && Str.truthy (netloc u)
            then Ok (urlunparse u)
            else
              let loc := if mem (scheme u) uses_netloc then netloc b else netloc u in
              if negb (Str.truthy (path u)) && negb (Str.truthy (params u)) then
                Ok (urlunparse
                      (mkParse (scheme u) loc (path b) (params b)
                         (if Str.truthy (query u) then query u else query b)
                         (fragment u)))
              else
                let base_parts :=
                  let parts := split_slash (path b) in
                  if Str.truthy (List.last parts "") then List.removelast parts
                  else parts in
                let segments :=
                  if String.prefix "/" (path u) then split_slash (path u)
                  else squeeze_middle (base_parts ++ split_slash (path u)) in
                let resolved_path := resolve [] segments in
                let resolved_path :=
                  let l := List.last segments "" in
                  if String.eqb l "." || String.eqb l ".."
                  then (resolved_path ++ [""])%list
                  else resolved_path in
                let joined := Str.join "/" resolved_path in
                Ok (urlunparse
                      (mkParse (scheme u) loc
                         (if Str.truthy joined then joined else "/")
                         (params u) (query u) (fragment u)))
        end
    end.

End Urllib.

(** ** How the pipeline reads a fetch

    [start_scraping] tells three outcomes apart in what [fetch_url_data]
    returns: [None] or a status of 400 and more is a failure, a response
    flagged [_was_blocked] is a block, anything else is a success. *)

Inductive FetchOutcome :=
| Success (status : Z) (body : Result string)
| Blocked (status : Z) (body : Result string)
| Failed.

Definition outcome (resp : option Main.Fetched) : FetchOutcome :=
  match resp with
  | None => Failed
  | Some f =>
      let r := Main.response f in
      if Main._was_blocked f then Blocked (status_code r) (text r)
      else if status_code r >=? 400 then Failed
      else Success (status_code r) (text r)
  end.

(** The trace of [n] attempts each followed by its backoff sleep, the
    first of them being attempt [i]. *)
Definition backoff_trace (url : string) (wait i : Z) (n : nat) : list Event :=
  flat_map (fun j => [Get url; Sleep (wait * 2 ^ (i + Z.of_nat j))]) (seq 0 n).

(** A record with nothing extracted. *)
Definition all_absent (r : PageRecord) : Prop :=
  title r = None /\ h1 r = None /\ meta_description r = None /\
  rating r = None /\ review_count r = None /\ pricing r = None /\ ctas r = [].

(** A tag that the class scan of [get_metric] takes for a rating: it has
    a class attribute whose joined, lower-cased tokens contain one of the
    rating keywords. *)
Definition rating_by_class (e : Node) : bool :=
  Parser.has_class e
  && existsb (fun k => Str.contains k (Parser.combined_class e))
       (Parser.metric_keys "rating").

(** A document without any of the three rating markers [get_metric]
    looks for. *)
Definition no_rating_markers (soup : Parser.Soup) : Prop :=
  Parser.find soup (Parser.attr_is "itemprop" "ratingValue") = None
  /\ Parser.find soup (Parser.aria_matches "rating") = None
  /\ Parser.find_all soup rating_by_class = [].

(** The policy [_get_robot_parser] finds for an origin: the cached one, or
    the one read now when nothing is cached and the read succeeds. *)
Definition policy (robots_read : string -> nat -> Result RobotFileParser)
  (base : string) (w : World) (p : RobotFileParser) : Prop :=
  _ROBOTS_CACHE w !! base = Some p
  \/ (_ROBOTS_CACHE w !! base = None
      /\ robots_read (base ++ "/robots.txt") (robots_reads w) = Ok p).

(** The text [get_json_ld] decodes for a script tag:
    [s.string or s.get_text(strip=True)]. *)
Definition script_raw (s : Node) : string :=
  match Parser.tag_string s with
  | Some x => if Str.truthy x then x else Parser.get_text "" s
  | None => Parser.get_text "" s
  end.

(** An answer of the network after which [fetch_url_data] tries again
    when retries are left: a transport error, or a status of the retryable
    set on a response that is not flagged. *)
Definition transient (a : Result Response) : Prop :=
  match a with
  | Raise _ => True
  | Ok r => In (status_code r) Main.retry_codes /\ Parser.check_blocking r = false
  end.

(** The four statuses of a record. *)
Definition known_status (s : string) : Prop :=
  s = "ok" \/ s = "skipped" \/ s = "blocked" \/ s = "failed".

(** The address [_get_robot_parser] reads for an origin. *)
Definition robots_url (base : string) : string := base ++ "/robots.txt".

(** What [is_allowed] answers on a parser [p] it has obtained. *)
Definition verdict (p : RobotFileParser) (agent url : string) : bool * string :=
  match can_fetch p agent url with
  | Ok false => (false, Robots.disallowed_reason agent)
  | _ => (true, "")
  end.

(** The href [get_btns] resolves for a link:
    [str(e.get("href", "")).strip()]. *)
Definition link_href (e : Node) : string :=
  Str.strip (default "" (Parser.get e "href")).

(** The test of [get_json_ld] for the script tags it reads. *)
Definition is_ld_json_script (e : Node) : bool :=
  Parser.named "script" e && Parser.attr_is "type" "application/ld+json" e.

(** The agent name [start_scraping] checks robots.txt for, the default
    of [is_allowed]. *)
Definition default_agent : string := "scraper_project/1.0".

(** ** Sample inputs *)

Module Sample.

Definition empty_world : World := {| trace := []; _ROBOTS_CACHE := ∅ |}.

Definition page_url : string := "https://example.com/x".

(** A server that answers every request with the same response. *)
Definition always (r : Response) : string -> nat -> Result Response :=
  fun _ _ => Ok r.

Definition forbidden : Response := mkResponse 403 (Ok "Forbidden").
Definition server_error : Response := mkResponse 500 (Ok "Internal Server Error").
Definition captcha_error : Response :=
  mkResponse 500 (Ok "Please solve this CAPTCHA to continue").
Definition captcha_page : Response :=
  mkResponse 200 (Ok "<html>Please solve this CAPTCHA to continue</html>").

(** A host whose robots.txt cannot be read, and one that serves a policy
    closed to every agent. *)
Definition urlparse (_ : string) : Result (string * string) :=
  Ok ("https", "example.com").
Definition no_robots (_ : string) (_ : nat) : Result RobotFileParser :=
  Raise RequestException.
Definition deny_all : RobotFileParser := mkRobotFileParser (fun _ _ => Ok false).
Definition closed_robots (_ : string) (_ : nat) : Result RobotFileParser :=
  Ok deny_all.

(** A server whose answer for [/a] cannot be decoded. *)
Definition undecodable : Response := mkResponse 200 (Raise (Exception "decode")).
Definition plain_page : Response := mkResponse 200 (Ok "<html></html>").
Definition two_pages (u : string) (_ : nat) : Result Response :=
  if String.eqb u "https://example.com/a" then Ok undecodable else Ok plain_page.

Definition no_json (_ : string) : Result JSON := Raise JSONDecodeError.
Definition no_urljoin (_ _ : string) : Result string := Raise ValueError.
Definition empty_soup (_ : string) : Result (list Node) := Ok [].
Definition broken_soup (_ : string) : Result (list Node) :=
  Raise (Exception "parser").

(** A page whose only content is one JSON-LD block holding two rated
    objects, and [json.loads] on the text of that block. *)
Definition dq : string := String (ascii_of_nat 34) EmptyString.
Definition quoted (s : string) : string := dq ++ s ++ dq.

Definition rated_text (v : string) : string :=
  "{" ++ quoted "aggregateRating" ++ ": {" ++ quoted "ratingValue" ++ ": "
  ++ quoted v ++ "}}".

Definition rated (v : string) : JSON :=
  JDict [("aggregateRating", JDict [("ratingValue", JStr v)])].

Definition two_ratings_text : string :=
  "[" ++ rated_text "3.0" ++ ", " ++ rated_text "4.5" ++ "]".

Definition json_loads (s : string) : Result JSON :=
  if String.eqb s two_ratings_text then Ok (JList [rated "3.0"; rated "4.5"])
  else if String.eqb s (rated_text "4.5") then Ok (rated "4.5")
  else Raise JSONDecodeError.

Definition ld_json (content : string) : Node :=
  Tag "script" {[ "type" := "application/ld+json" ]} None [NavigableString content].

Definition two_ratings_page : list Node :=
  [ Tag "html" ∅ None [ Tag "head" ∅ None [ld_json two_ratings_text] ] ].

Definition one_rating_page : list Node :=
  [ Tag "html" ∅ None [ Tag "head" ∅ None [ld_json (rated_text "4.5")] ] ].

(** The star rating of a product page: the value sits in the class, the
    children are empty icons. *)
Definition icon_star : Node := Tag "i" ∅ (Some ["icon-star"]) [].
Definition star_rating : Node :=
  Tag "p" ∅ (Some ["star-rating"; "Three"])
    [icon_star; icon_star; icon_star; icon_star; icon_star].
Definition product_page : list Node :=
  [ Tag "html" ∅ None [ Tag "body" ∅ None [star_rating] ] ].

(** A page with one link and one button. *)
Definition signup_link : Node :=
  Tag "a" {[ "href" := "/join" ]} None [NavigableString "Sign Up Free"].
Definition buy_button : Node :=
  Tag "button" ∅ None [NavigableString "Buy now"].
Definition signup_page : list Node :=
  [ Tag "html" ∅ None [ Tag "body" ∅ None [signup_link; buy_button] ] ].

Definition soup_of (soup : list Node) (_ : string) : Result (list Node) := Ok soup.

(** A network that is down, one that is down for the first two requests,
    and one that is down twice and then answers 404. *)
Definition down (_ : string) (_ : nat) : Result Response := Raise RequestException.
Definition flaky (_ : string) (n : nat) : Result Response :=
  if (n <? 2)%nat then Raise RequestException else Ok plain_page.
Definition not_found : Response := mkResponse 404 (Ok "Not Found").
Definition flaky_not_found (_ : string) (n : nat) : Result Response :=
  if (n <? 2)%nat then Raise RequestException else Ok not_found.

(** A block that does not decode, a review counter, and a page whose
    link comes between two buttons. *)
Definition broken_block : Node := ld_json "{oops".
Definition review_counter : Node :=
  Tag "span" ∅ (Some ["review-count"]) [NavigableString "12 reviews"].
Definition reviewed_page : list Node :=
  [ Tag "html" ∅ None [ Tag "body" ∅ None [review_counter] ] ].
Definition link_between_buttons : list Node :=
  [ Tag "body" ∅ None [buy_button; signup_link; buy_button] ].

(** A page with a JSON-LD block that does not decode and a star rating. *)
Definition broken_ld_page : list Node :=
  [ Tag "html" ∅ None
      [ Tag "head" ∅ None [broken_block]; Tag "body" ∅ None [star_rating] ] ].

(** A robots.txt request answered with HTTP 503, one answered with 404,
    and one that cannot reach the server. *)
Definition robots_503 (_ : string) (_ : nat) : Robotparser.Fetch :=
  Robotparser.HTTPError 503.
Definition robots_404 (_ : string) (_ : nat) : Robotparser.Fetch :=
  Robotparser.HTTPError 404.
Definition robots_unreachable (_ : string) (_ : nat) : Robotparser.Fetch :=
  Robotparser.TransportError RequestException.

(** A world in which the policy of example.com is already cached, and
    the world after one failed read of its robots.txt. *)
Definition origin : string := "https://example.com".
Definition cached_world : World :=
  {| trace := []; _ROBOTS_CACHE := {[ origin := deny_all ]} |}.
Definition after_read : World :=
  {| trace := [RobotsRead "https://example.com/robots.txt"]; _ROBOTS_CACHE := ∅ |}.


End Sample.

(** * Properties *)

(** ** Strings *)

Lemma lower_app (a b : string) : Str.lower (a ++ b) = Str.lower a ++ Str.lower b.
Proof. induction a as [|c a IH]; simpl; [reflexivity | now rewrite IH]. Qed.

Lemma prefix_app (a b : string) : String.prefix a (a ++ b) = true.
Proof.
  induction a as [|c a IH]; simpl.
  - now destruct b.
  - destruct (ascii_dec c c); [assumption | congruence].
Qed.

Lemma contains_prefix (needle hay : string) :
  String.prefix needle hay = true -> Str.contains needle hay = true.
Proof. intros H. destruct hay; cbn [Str.contains]; now rewrite H. Qed.

Lemma contains_app (needle pre post : string) :
  Str.contains needle (pre ++ needle ++ post) = true.
Proof.
  induction pre as [|c pre IH].
  - change ("" ++ needle ++ post) with (needle ++ post).
    apply contains_prefix, prefix_app.
  - change (String c pre ++ needle ++ post) with (String c (pre ++ needle ++ post)).
    cbn [Str.contains]. rewrite IH. now destruct (String.prefix _ _).
Qed.

(** The keyword test of [check_blocking] accepts a body that holds the
    word in any letter case. *)
Lemma contains_any_case (word pre mid post : string) :
  Str.lower mid = word ->
  Str.contains word (Str.lower (pre ++ mid ++ post)) = true.
Proof.
  intros <-. rewrite !lower_app. apply contains_app.
Qed.

Lemma truthy_nonempty (v : string) : Str.truthy v = true -> v <> "".
Proof. destruct v; [discriminate | intros _; discriminate]. Qed.

(** ** The trace *)

Lemma gets_log (ev : Event) (w : World) :
  gets (log ev w) = (gets w + (if is_get ev then 1 else 0))%nat.
Proof.
  unfold gets, log; simpl. rewrite List.filter_app, List.length_app. simpl.
  now destruct (is_get ev).
Qed.

Lemma log_trace (ev : Event) (w : World) : trace (log ev w) = (trace w ++ [ev])%list.
Proof. reflexivity. Qed.

Lemma world_eta (w : World) :
  {| trace := trace w; _ROBOTS_CACHE := _ROBOTS_CACHE w |} = w.
Proof. now destruct w. Qed.

Lemma backoff_shift (url : string) (wait i : Z) (k s : nat) :
  flat_map (fun j => [Get url; Sleep (wait * 2 ^ (i + 1 + Z.of_nat j))]) (seq s k)
  = flat_map (fun j => [Get url; Sleep (wait * 2 ^ (i + Z.of_nat j))]) (seq (S s) k).
Proof.
  revert s. induction k as [|k IH]; intros s; [reflexivity |].
  cbn [seq flat_map]. rewrite IH.
  now replace (i + 1 + Z.of_nat s) with (i + Z.of_nat (S s)) by lia.
Qed.

Lemma backoff_trace_S (url : string) (wait i : Z) (k : nat) :
  backoff_trace url wait i (S k)
  = Get url :: Sleep (wait * 2 ^ i) :: backoff_trace url wait (i + 1) k.
Proof.
  unfold backoff_trace. cbn [seq flat_map]. rewrite backoff_shift.
  now rewrite Z.add_0_r.
Qed.

(** The backoff sleeps of a fetch are accepted when the largest one is. *)
Lemma backoff_sleep_accepted (tries wait i : Z) (w : World) :
  0 <= wait -> wait * 2 ^ tries <= SLEEP_SAFE -> 0 <= i <= tries ->
  time_sleep (wait * 2 ^ i) w = Ok (log (Sleep (wait * 2 ^ i)) w).
Proof.
  intros Hw Hfit Hi. unfold time_sleep.
  assert (H0 : 0 <= wait * 2 ^ i).
  { apply Z.mul_nonneg_nonneg; [lia |]. apply Z.pow_nonneg. lia. }
  assert (Hle : wait * 2 ^ i <= wait * 2 ^ tries).
  { apply Z.mul_le_mono_nonneg_l; [lia |]. apply Z.pow_le_mono_r; lia. }
  replace (wait * 2 ^ i <? 0) with false by lia.
  replace (SLEEP_OVERFLOW <? wait * 2 ^ i) with false; [reflexivity |].
  symmetry. apply Z.ltb_ge. unfold SLEEP_SAFE, SLEEP_OVERFLOW in *. lia.
Qed.

(** ** The fetcher *)

Section Fetcher.

Variable requests_get : string -> nat -> Result Response.

Lemma captcha_is_blocked (r : Response) (body pre mid post : string) :
  text r = Ok body -> body = pre ++ mid ++ post -> Str.lower mid = "captcha" ->
  Parser.check_blocking r = true.
Proof.
  intros Ht -> Hm. unfold Parser.check_blocking.
  destruct (existsb _ _); [reflexivity |].
  rewrite Ht. cbn [Parser._BLOCK_KEYWORDS existsb].
  now rewrite (contains_any_case "captcha" pre mid post Hm).
Qed.

(** A flagged first response ends the fetch at once. *)
Lemma fetch_blocked_first (url : string) (tries wait : Z) (w : World) (r : Response) :
  0 <= tries ->
  requests_get url (gets w) = Ok r ->
  Parser.check_blocking r = true ->
  Main.fetch_url_data requests_get url tries wait w
  = (Ok (Some (Main.mkFetched r true)), log (Get url) w).
Proof.
  intros Ht Hget Hb. unfold Main.fetch_url_data.
  replace (Z.to_nat (tries + 1)) with (S (Z.to_nat tries)) by lia.
  cbn [Main.fetch_loop]. unfold Main.attempt. now rewrite Hget, Hb.
Qed.

(** One attempt answered by a retryable, unflagged status before the
    last: the backoff sleep, then the next attempt. *)
Lemma attempt_retry (url : string) (tries wait i : Z) (w : World) (r : Response) :
  0 <= wait -> wait * 2 ^ tries <= SLEEP_SAFE -> 0 <= i < tries ->
  requests_get url (gets w) = Ok r ->
  Parser.check_blocking r = false ->
  In (status_code r) Main.retry_codes ->
  Main.attempt requests_get url tries wait i w
  = (Main.Continue, log (Sleep (wait * 2 ^ i)) (log (Get url) w)).
Proof.
  intros Hw Hfit Hi Hget Hb Hin. unfold Main.attempt. rewrite Hget, Hb.
  assert (Hne : (status_code r =? 403) = false).
  { unfold Main.retry_codes in Hin. simpl in Hin. lia. }
  assert (Hex : existsb (Z.eqb (status_code r)) Main.retry_codes = true).
  { apply existsb_exists. exists (status_code r). split; [assumption | lia]. }
  rewrite Hne, Hex.
  replace (i <? tries) with true by lia.
  now rewrite (backoff_sleep_accepted tries wait i _ Hw Hfit ltac:(lia)).
Qed.

(** The last attempt answered by a retryable, unflagged status. *)
Lemma attempt_exhausted (url : string) (tries wait : Z) (w : World) (r : Response) :
  requests_get url (gets w) = Ok r ->
  Parser.check_blocking r = false ->
  In (status_code r) Main.retry_codes ->
  Main.attempt requests_get url tries wait tries w
  = (Main.Return (Ok None), log (Get url) w).
Proof.
  intros Hget Hb Hin. unfold Main.attempt. rewrite Hget, Hb.
  assert (Hne : (status_code r =? 403) = false).
  { unfold Main.retry_codes in Hin. simpl in Hin. lia. }
  assert (Hex : existsb (Z.eqb (status_code r)) Main.retry_codes = true).
  { apply existsb_exists. exists (status_code r). split; [assumption | lia]. }
  rewrite Hne, Hex. now rewrite Z.ltb_irrefl.
Qed.

(** The loop from attempt [i] with [k] retries left, every answer
    retryable and unflagged. *)
Lemma fetch_loop_retryable (url : string) (tries wait : Z) :
  0 <= wait -> wait * 2 ^ tries <= SLEEP_SAFE ->
  forall (k : nat) (i : Z) (w : World),
    0 <= i -> i + Z.of_nat k = tries ->
    (forall j, (j <= k)%nat ->
       exists r, requests_get url (gets w + j)%nat = Ok r /\
                 In (status_code r) Main.retry_codes /\
                 Parser.check_blocking r = false) ->
    Main.fetch_loop requests_get url tries wait (S k) i w
    = (Ok None,
       {| trace := trace w ++ backoff_trace url wait i k ++ [Get url];
          _ROBOTS_CACHE := _ROBOTS_CACHE w |}).
Proof.
  intros Hw Hfit k. induction k as [|k IH]; intros i w Hi Hk Hall.
  - destruct (Hall O ltac:(lia)) as (r & Hget & Hin & Hb).
    rewrite Nat.add_0_r in Hget.
    cbn [Main.fetch_loop]. replace i with tries by lia.
    now rewrite (attempt_exhausted url tries wait w r Hget Hb Hin).
  - destruct (Hall O ltac:(lia)) as (r & Hget & Hin & Hb).
    rewrite Nat.add_0_r in Hget.
    change (Main.fetch_loop requests_get url tries wait (S (S k)) i w)
      with (match Main.attempt requests_get url tries wait i w with
            | (Main.Continue, w') =>
                Main.fetch_loop requests_get url tries wait (S k) (i + 1) w'
            | (Main.Return r, w') => (r, w')
            end).
    rewrite (attempt_retry url tries wait i w r Hw Hfit ltac:(lia) Hget Hb Hin).
    rewrite IH; [| lia | lia |].
    + f_equal. f_equal. rewrite !log_trace, backoff_trace_S.
      rewrite <- !app_assoc. reflexivity.
    + intros j Hj. rewrite !gets_log. simpl.
      destruct (Hall (S j) ltac:(lia)) as (r' & Hget' & Hrest).
      exists r'. split; [| assumption].
      now replace (gets w + 1 + 0 + j)%nat with (gets w + S j)%nat by lia.
Qed.

End Fetcher.

(** C1 (as amended): a response with status 403 is flagged by
    [check_blocking], so the fetcher hands it back at once as a blocked
    response: one request, no backoff sleep, no retry. *)
Theorem fetch_403_blocked_no_retry
  (requests_get : string -> nat -> Result Response)
  (url : string) (tries wait : Z) (w : World) (r : Response) :
  0 <= tries ->
  requests_get url (gets w) = Ok r ->
  status_code r = 403 ->
  Main.fetch_url_data requests_get url tries wait w
  = (Ok (Some (Main.mkFetched r true)), log (Get url) w)
  /\ outcome (Some (Main.mkFetched r true)) = Blocked 403 (text r).
Proof.
  intros Ht Hget H403. split.
  - apply fetch_blocked_first; try assumption.
    unfold Parser.check_blocking. now rewrite H403.
  - unfold outcome. simpl. now rewrite H403.
Qed.

Lemma fetch_403_blocked_no_retry_witness :
  0 <= 3 /\
  Sample.always Sample.forbidden Sample.page_url (gets Sample.empty_world)
  = Ok Sample.forbidden /\
  status_code Sample.forbidden = 403 /\
  Main.fetch_url_data (Sample.always Sample.forbidden) Sample.page_url 3 2
    Sample.empty_world
  = (Ok (Some (Main.mkFetched Sample.forbidden true)),
     log (Get Sample.page_url) Sample.empty_world).
Proof.
  split; [lia |]. split; [reflexivity |]. split; [reflexivity |].
  apply (fetch_403_blocked_no_retry (Sample.always Sample.forbidden)
           Sample.page_url 3 2 Sample.empty_world Sample.forbidden);
    [lia | reflexivity | reflexivity].
Defined.

(** C1 (as stated) fails: the fetch of a page answered with 403 does not
    end as [Failed]; the pipeline reads what it returns as [Blocked]. *)
Lemma fetch_403_is_not_Failed :
  exists f w',
    Main.fetch_url_data (Sample.always Sample.forbidden) Sample.page_url 3 2
      Sample.empty_world = (Ok (Some f), w')
    /\ outcome (Some f) = Blocked 403 (Ok "Forbidden")
    /\ outcome (Some f) <> Failed.
Proof.
  exists (Main.mkFetched Sample.forbidden true),
         (log (Get Sample.page_url) Sample.empty_world).
  split; [reflexivity |]. split; [reflexivity | discriminate].
Qed.

(** C2 (as amended): when every attempt is answered with a status of the
    retryable set that [check_blocking] does not flag, and the longest
    backoff is a length every platform sleeps ([wait * 2^tries] at most
    [SLEEP_SAFE]), the fetcher makes [tries + 1] requests, sleeps
    [wait * 2^i] after attempt [i] for each [i < tries], and returns
    [None]. *)
Theorem fetch_retryable_exhausts
  (requests_get : string -> nat -> Result Response)
  (url : string) (tries wait : Z) (w : World) :
  0 <= tries -> 0 <= wait -> wait * 2 ^ tries <= SLEEP_SAFE ->
  (forall j, (j <= Z.to_nat tries)%nat ->
     exists r, requests_get url (gets w + j)%nat = Ok r /\
               In (status_code r) Main.retry_codes /\
               Parser.check_blocking r = false) ->
  Main.fetch_url_data requests_get url tries wait w
  = (Ok None,
     {| trace := trace w ++ backoff_trace url wait 0 (Z.to_nat tries) ++ [Get url];
        _ROBOTS_CACHE := _ROBOTS_CACHE w |})
  /\ outcome None = Failed.
Proof.
  intros Ht Hw Hfit Hall. split; [| reflexivity].
  unfold Main.fetch_url_data.
  replace (Z.to_nat (tries + 1)) with (S (Z.to_nat tries)) by lia.
  apply fetch_loop_retryable; [assumption | assumption | lia | lia | assumption].
Qed.

Lemma fetch_retryable_exhausts_witness :
  Main.fetch_url_data (Sample.always Sample.server_error) Sample.page_url 3 2
    Sample.empty_world
  = (Ok None,
     {| trace := [ Get Sample.page_url; Sleep 2; Get Sample.page_url; Sleep 4;
                   Get Sample.page_url; Sleep 8; Get Sample.page_url ];
        _ROBOTS_CACHE := ∅ |}).
Proof.
  refine (proj1 (fetch_retryable_exhausts (Sample.always Sample.server_error)
                   Sample.page_url 3 2 Sample.empty_world _ _ _ _));
    [lia | lia | discriminate |].
  intros j _. exists Sample.server_error.
  split; [reflexivity |]. split; [simpl; tauto | reflexivity].
Defined.

(** C2 (as stated) fails: a 500 whose body shows a captcha is in the
    retryable set, yet it is returned at once, flagged, after one request
    and no sleep. *)
Lemma fetch_retryable_captcha_not_retried :
  In (status_code Sample.captcha_error) Main.retry_codes /\
  Main.fetch_url_data (Sample.always Sample.captcha_error) Sample.page_url 3 2
    Sample.empty_world
  = (Ok (Some (Main.mkFetched Sample.captcha_error true)),
     {| trace := [Get Sample.page_url]; _ROBOTS_CACHE := ∅ |}).
Proof. split; [simpl; tauto | reflexivity]. Qed.

(** A negative [wait] makes [time.sleep] raise; the handler of the loop
    sleeps again, and that second [ValueError] leaves [fetch_url_data]. *)
Example fetch_negative_wait_raises :
  Main.fetch_url_data (Sample.always Sample.server_error) Sample.page_url 3 (-1)
    Sample.empty_world
  = (Raise ValueError, {| trace := [Get Sample.page_url]; _ROBOTS_CACHE := ∅ |}).
Proof. reflexivity. Qed.

(** A [wait] of ten thousand million seconds is more than [time.sleep]
    takes: the first backoff raises [OverflowError], and so does the sleep of
    the handler, after one request. *)
Example fetch_huge_wait_raises :
  Main.fetch_url_data (Sample.always Sample.server_error) Sample.page_url 1
    10000000000 Sample.empty_world
  = (Raise OverflowError, {| trace := [Get Sample.page_url]; _ROBOTS_CACHE := ∅ |}).
Proof. reflexivity. Qed.

(** ** The pipeline *)

Section Pipeline.

Variable urlparse : string -> Result (string * string).
Variable robots_read : string -> nat -> Result RobotFileParser.
Variable requests_get : string -> nat -> Result Response.
Variable json_loads : string -> Result JSON.
Variable urljoin : string -> string -> Result string.
Variable BeautifulSoup : string -> Result Parser.Soup.

Abbreviation process_url :=
  (Main.process_url urlparse robots_read requests_get json_loads urljoin BeautifulSoup).
Abbreviation scrape_one :=
  (Main.scrape_one urlparse robots_read requests_get json_loads urljoin BeautifulSoup).
Abbreviation start_scraping :=
  (Main.start_scraping urlparse robots_read requests_get json_loads urljoin BeautifulSoup).
Abbreviation extract_structured_data :=
  (Parser.extract_structured_data json_loads urljoin BeautifulSoup).

Lemma extract_url (u html : string) : url (extract_structured_data u html) = u.
Proof. unfold Parser.extract_structured_data. now destruct (BeautifulSoup html). Qed.

(** A record is either an empty one or what the extractor built. *)
Lemma scrape_one_shape (u : string) (w : World) :
  (exists s, fst (scrape_one u w) = Main.make_empty u s)
  \/ (exists html, fst (scrape_one u w) = extract_structured_data u html).
Proof.
  unfold Main.scrape_one, Main.process_url.
  destruct (Robots.is_allowed _ _ _ _ _) as [[[] ?] w1]; [| left; eauto].
  destruct (Main.fetch_url_data _ _ _ _ _) as [[[f|]|e] w3]; simpl; [| left; eauto ..].
  destruct (Main._was_blocked f); [left; eauto |].
  destruct (_ >=? _); [left; eauto |].
  destruct (text _); simpl; [right; eauto | left; eauto].
Qed.

Lemma scrape_one_url (u : string) (w : World) : url (fst (scrape_one u w)) = u.
Proof.
  destruct (scrape_one_shape u w) as [[s ->] | [html ->]];
    [reflexivity | apply extract_url].
Qed.

Lemma scrape_one_raise (u : string) (w w' : World) (e : exn) :
  process_url u w = (Raise e, w') ->
  scrape_one u w = (Main.make_empty u "failed", w').
Proof. intros H. unfold Main.scrape_one. now rewrite H. Qed.

Lemma start_scraping_cons (u : string) (rest : list string) (w : World) :
  start_scraping (u :: rest) w
  = (fst (scrape_one u w) :: fst (start_scraping rest (snd (scrape_one u w))),
     snd (start_scraping rest (snd (scrape_one u w)))).
Proof.
  cbn [Main.start_scraping]. destruct (scrape_one u w) as [r w1]. simpl.
  now destruct (start_scraping rest w1).
Qed.

Lemma start_scraping_app (pre post : list string) (w : World) :
  start_scraping (pre ++ post) w
  = ((fst (start_scraping pre w)
      ++ fst (start_scraping post (snd (start_scraping pre w))))%list,
     snd (start_scraping post (snd (start_scraping pre w)))).
Proof.
  revert w. induction pre as [|u pre IH]; intros w.
  - simpl. now destruct (start_scraping post w).
  - rewrite <- app_comm_cons, !start_scraping_cons, IH. reflexivity.
Qed.

Lemma start_scraping_urls (urls : list string) (w : World) :
  List.map url (fst (start_scraping urls w)) = urls.
Proof.
  revert w. induction urls as [|u rest IH]; intros w; [reflexivity |].
  rewrite start_scraping_cons. simpl. now rewrite scrape_one_url, IH.
Qed.

Lemma start_scraping_records (urls : list string) (w : World) (r : PageRecord) :
  In r (fst (start_scraping urls w)) ->
  exists u w', r = fst (scrape_one u w').
Proof.
  revert w. induction urls as [|u rest IH]; intros w; [intros [] |].
  rewrite start_scraping_cons. simpl. intros [<- | Hin]; eauto.
Qed.

(** C3: the run yields one record per input URL, in input order, and a
    URL whose processing raises gets a failed record while the URLs after it
    are processed as usual. *)
Theorem start_scraping_one_record_per_url (urls : list string) (w : World) :
  length (fst (start_scraping urls w)) = length urls
  /\ List.map url (fst (start_scraping urls w)) = urls
  /\ (forall pre u post e w1,
        urls = (pre ++ u :: post)%list ->
        process_url u (snd (start_scraping pre w)) = (Raise e, w1) ->
        fst (start_scraping urls w)
        = (fst (start_scraping pre w)
           ++ Main.make_empty u "failed" :: fst (start_scraping post w1))%list).
Proof.
  split; [| split].
  - rewrite <- (start_scraping_urls urls w) at 2. now rewrite List.length_map.
  - apply start_scraping_urls.
  - intros pre u post e w1 -> Hraise.
    rewrite start_scraping_app. cbn [fst]. f_equal.
    rewrite start_scraping_cons. cbn [fst].
    now rewrite (scrape_one_raise _ _ _ _ Hraise).
Qed.

(** C4: a record of the extractor or of the run whose status is not
    ["ok"] has every optional field absent and no CTA. *)
Theorem not_ok_record_is_empty :
  (forall u html,
     status (extract_structured_data u html) <> "ok" ->
     all_absent (extract_structured_data u html))
  /\ (forall urls w r,
        In r (fst (start_scraping urls w)) ->
        status r <> "ok" ->
        all_absent r).
Proof.
  assert (Hex : forall u html,
             status (extract_structured_data u html) <> "ok" ->
             all_absent (extract_structured_data u html)).
  { intros u html. unfold Parser.extract_structured_data.
    destruct (BeautifulSoup html) as [soup|e]; simpl.
    - intros H. now contradiction H.
    - intros _. repeat split. }
  split; [exact Hex |].
  intros urls w r Hin Hst.
  destruct (start_scraping_records urls w r Hin) as (u & w' & ->).
  destruct (scrape_one_shape u w') as [[s Hs] | [html Hh]].
  - rewrite Hs. repeat split.
  - rewrite Hh in *. now apply Hex.
Qed.

(** C5: a first response whose body holds the word captcha, in any letter
    case and under any status code, ends the fetch at once as a blocked
    response (one request, no sleep), and the run records the URL as
    blocked. *)
Theorem captcha_blocked_no_retry
  (r : Response) (body pre mid post : string) :
  text r = Ok body ->
  body = pre ++ mid ++ post ->
  Str.lower mid = "captcha" ->
  (forall u tries wait w,
     0 <= tries ->
     requests_get u (gets w) = Ok r ->
     Main.fetch_url_data requests_get u tries wait w
     = (Ok (Some (Main.mkFetched r true)), log (Get u) w)
     /\ outcome (Some (Main.mkFetched r true)) = Blocked (status_code r) (text r))
  /\ (forall u w reason w1,
        Robots.is_allowed urlparse robots_read u "scraper_project/1.0" w
        = ((true, reason), w1) ->
        requests_get u (gets w1) = Ok r ->
        start_scraping [u] w
        = ([Main.make_empty u "blocked"], log (Get u) (log Pause w1))).
Proof.
  intros Ht Hb Hm.
  pose proof (captcha_is_blocked r body pre mid post Ht Hb Hm) as Hblk.
  split.
  - intros u tries wait w Htries Hget. split.
    + now apply fetch_blocked_first.
    + reflexivity.
  - intros u w reason w1 Hall Hget.
    cbn [Main.start_scraping]. unfold Main.scrape_one, Main.process_url.
    rewrite Hall.
    rewrite (fetch_blocked_first requests_get u 3 2 (log Pause w1) r);
      [reflexivity | lia | | assumption].
    rewrite gets_log. simpl. now rewrite Nat.add_0_r.
Qed.

End Pipeline.

Lemma start_scraping_one_record_per_url_witness :
  let run := Main.start_scraping Sample.urlparse Sample.no_robots Sample.two_pages
               Sample.no_json Sample.no_urljoin Sample.empty_soup in
  let w1 := {| trace := [ RobotsRead "https://example.com/robots.txt"; Pause;
                          Get "https://example.com/a" ];
               _ROBOTS_CACHE := ∅ |} in
  Main.process_url Sample.urlparse Sample.no_robots Sample.two_pages
    Sample.no_json Sample.no_urljoin Sample.empty_soup
    "https://example.com/a" Sample.empty_world
  = (Raise (Exception "decode"), w1)
  /\ fst (run ["https://example.com/a"; "https://example.com/b"] Sample.empty_world)
     = Main.make_empty "https://example.com/a" "failed"
       :: fst (run ["https://example.com/b"] w1).
Proof.
  intros run w1.
  assert (Hraise :
    Main.process_url Sample.urlparse Sample.no_robots Sample.two_pages
      Sample.no_json Sample.no_urljoin Sample.empty_soup
      "https://example.com/a" Sample.empty_world
    = (Raise (Exception "decode"), w1)) by reflexivity.
  split; [exact Hraise |].
  exact (proj2 (proj2 (start_scraping_one_record_per_url Sample.urlparse
                         Sample.no_robots Sample.two_pages Sample.no_json
                         Sample.no_urljoin Sample.empty_soup
                         ["https://example.com/a"; "https://example.com/b"]
                         Sample.empty_world))
           [] "https://example.com/a" ["https://example.com/b"]
           (Exception "decode") w1 eq_refl Hraise).
Defined.

Lemma not_ok_record_is_empty_witness :
  status (Parser.extract_structured_data Sample.no_json Sample.no_urljoin
            Sample.broken_soup Sample.page_url "<html>") <> "ok"
  /\ all_absent (Parser.extract_structured_data Sample.no_json Sample.no_urljoin
                   Sample.broken_soup Sample.page_url "<html>").
Proof.
  assert (Hne : status (Parser.extract_structured_data Sample.no_json
                          Sample.no_urljoin Sample.broken_soup Sample.page_url
                          "<html>") <> "ok") by discriminate.
  split; [exact Hne |].
  exact (proj1 (not_ok_record_is_empty Sample.urlparse Sample.no_robots
                  Sample.two_pages Sample.no_json Sample.no_urljoin
                  Sample.broken_soup) Sample.page_url "<html>" Hne).
Defined.

Lemma captcha_blocked_no_retry_witness :
  Main.fetch_url_data (Sample.always Sample.captcha_page) Sample.page_url 3 2
    Sample.empty_world
  = (Ok (Some (Main.mkFetched Sample.captcha_page true)),
     log (Get Sample.page_url) Sample.empty_world)
  /\ fst (Main.start_scraping Sample.urlparse Sample.no_robots
            (Sample.always Sample.captcha_page) Sample.no_json Sample.no_urljoin
            Sample.empty_soup [Sample.page_url] Sample.empty_world)
     = [Main.make_empty Sample.page_url "blocked"].
Proof.
  destruct (captcha_blocked_no_retry Sample.urlparse Sample.no_robots
              (Sample.always Sample.captcha_page) Sample.no_json
              Sample.no_urljoin Sample.empty_soup Sample.captcha_page
              "<html>Please solve this CAPTCHA to continue</html>"
              "<html>Please solve this " "CAPTCHA" " to continue</html>"
              eq_refl eq_refl eq_refl) as [Hfetch Hrun].
  split.
  - exact (proj1 (Hfetch Sample.page_url 3 2 Sample.empty_world
                    ltac:(lia) eq_refl)).
  - rewrite (Hrun Sample.page_url Sample.empty_world ""
               (log (RobotsRead "https://example.com/robots.txt")
                  Sample.empty_world) eq_refl eq_refl).
    reflexivity.
Defined.

(** ** The compliance gate *)

Section Compliance.

Variable urlparse : string -> Result (string * string).
Variable robots_read : string -> nat -> Result RobotFileParser.

Abbreviation is_allowed := (Robots.is_allowed urlparse robots_read).
Abbreviation _get_robot_parser := (Robots._get_robot_parser robots_read).
Abbreviation _get_base_domain := (Robots._get_base_domain urlparse).

(** [_get_robot_parser] returns exactly the policy of the origin. *)
Lemma get_robot_parser_policy (base : string) (w : World) (p : RobotFileParser) :
  fst (_get_robot_parser base w) = Some p <-> policy robots_read base w p.
Proof.
  unfold Robots._get_robot_parser, policy.
  destruct (_ROBOTS_CACHE w !! base) as [q|] eqn:Hc.
  - simpl. split; [intros [= ->]; now left |].
    intros [[= ->] | [[=] _]]. reflexivity.
  - destruct (robots_read _ _) as [q|e]; simpl.
    + split; [intros [= ->]; now right |].
      intros [[=] | [_ [= ->]]]. reflexivity.
    + split; [intros [=] |]. intros [[=] | [_ [=]]].
Qed.

Lemma get_robot_parser_unread (base : string) (w : World) (e : exn) :
  _ROBOTS_CACHE w !! base = None ->
  robots_read (base ++ "/robots.txt") (robots_reads w) = Raise e ->
  _get_robot_parser base w = (None, log (RobotsRead (base ++ "/robots.txt")) w).
Proof.
  intros Hc Hr. unfold Robots._get_robot_parser. now rewrite Hc, Hr.
Qed.

(** The answers of [is_allowed] in terms of [read] and [can_fetch]: a
    read that raises opens the origin (the reason is empty); a policy that
    refuses the agent closes the URL with the reason naming the agent; every
    other case is open. *)
Theorem is_allowed_fail_open (url agent : string) (w : World) :
  (forall base e,
     _get_base_domain url = Ok base ->
     _ROBOTS_CACHE w !! base = None ->
     robots_read (base ++ "/robots.txt") (robots_reads w) = Raise e ->
     fst (is_allowed url agent w) = (true, ""))
  /\ (forall base p,
        _get_base_domain url = Ok base ->
        policy robots_read base w p ->
        can_fetch p agent url = Ok false ->
        fst (is_allowed url agent w)
        = (false, "Robots.txt disallowed access for agent '" ++ agent ++ "'"))
  /\ (~ (exists base p,
           _get_base_domain url = Ok base /\
           policy robots_read base w p /\
           can_fetch p agent url = Ok false) ->
      fst (is_allowed url agent w) = (true, "")).
Proof.
  split; [| split].
  - intros base e Hb Hc Hr. unfold Robots.is_allowed.
    now rewrite Hb, (get_robot_parser_unread base w e Hc Hr).
  - intros base p Hb Hp Hcan. unfold Robots.is_allowed. rewrite Hb.
    apply get_robot_parser_policy in Hp.
    destruct (_get_robot_parser base w) as [o w']. simpl in Hp. subst o.
    now rewrite Hcan.
  - intros Hno. unfold Robots.is_allowed.
    destruct (_get_base_domain url) as [base|e] eqn:Hb; [| reflexivity].
    destruct (_get_robot_parser base w) as [[p|] w'] eqn:Hg; [| reflexivity].
    destruct (can_fetch p agent url) as [[]|e] eqn:Hcan; try reflexivity.
    exfalso. apply Hno. exists base, p. repeat split; try assumption.
    apply get_robot_parser_policy. now rewrite Hg.
Qed.

End Compliance.

Section ComplianceWithParser.

Variable urlparse : string -> Result (string * string).

(** How the request for robots.txt ends, on the n-th read of the run. *)
Variable urlopen : string -> nat -> Robotparser.Fetch.

Abbreviation is_allowed_std :=
  (Robots.is_allowed urlparse (Robotparser.read urlopen)).


End ComplianceWithParser.



Lemma is_allowed_fail_open_witness :
  fst (Robots.is_allowed Sample.urlparse Sample.no_robots Sample.page_url
         "scraper_project/1.0" Sample.empty_world) = (true, "")
  /\ fst (Robots.is_allowed Sample.urlparse Sample.closed_robots Sample.page_url
            "scraper_project/1.0" Sample.empty_world)
     = (false, "Robots.txt disallowed access for agent 'scraper_project/1.0'")
  /\ fst (Robots.is_allowed Sample.urlparse Sample.no_robots Sample.page_url
            "curl" Sample.empty_world) = (true, "").
Proof.
  split; [| split].
  - exact (proj1 (is_allowed_fail_open Sample.urlparse Sample.no_robots
                    Sample.page_url "scraper_project/1.0" Sample.empty_world)
             "https://example.com" RequestException eq_refl eq_refl eq_refl).
  - exact (proj1 (proj2 (is_allowed_fail_open Sample.urlparse Sample.closed_robots
                           Sample.page_url "scraper_project/1.0" Sample.empty_world))
             "https://example.com" Sample.deny_all eq_refl
             (or_intror (conj eq_refl eq_refl)) eq_refl).
  - apply (proj2 (proj2 (is_allowed_fail_open Sample.urlparse Sample.no_robots
                           Sample.page_url "curl" Sample.empty_world))).
    intros (base & p & Hb & [Hp | [_ Hp]] & _); discriminate Hp.
Defined.

(** ** The extractor *)

Lemma filter_filter {A : Type} (p q : A -> bool) (l : list A) :
  List.filter q (List.filter p l) = List.filter (fun x => p x && q x) l.
Proof.
  induction l as [|x l IH]; [reflexivity |].
  simpl. destruct (p x); simpl; [destruct (q x) |]; now rewrite IH.
Qed.

(** The class scan only looks at the tags whose class holds a keyword. *)
Lemma class_scan_filter (type : string) (keys : list string) (es : list Node) :
  Parser.class_scan type keys es
  = Parser.class_scan type keys
      (List.filter
         (fun e => existsb (fun k => Str.contains k (Parser.combined_class e)) keys)
         es).
Proof.
  induction es as [|e es IH]; [reflexivity |].
  cbn [Parser.class_scan List.filter].
  destruct (existsb _ keys) eqn:Hk; [| exact IH].
  cbn [Parser.class_scan]. rewrite Hk, IH. reflexivity.
Qed.

Lemma class_scan_rating (soup : Parser.Soup) :
  Parser.class_scan "rating" (Parser.metric_keys "rating")
    (Parser.find_all soup Parser.has_class)
  = Parser.class_scan "rating" (Parser.metric_keys "rating")
      (Parser.find_all soup rating_by_class).
Proof.
  rewrite class_scan_filter. unfold Parser.find_all.
  now rewrite filter_filter.
Qed.

Lemma get_metric_no_markers (soup : Parser.Soup) :
  no_rating_markers soup -> Parser.get_metric soup "rating" = None.
Proof.
  intros (Hitem & Haria & Hclass). unfold Parser.get_metric.
  change (Parser.metric_item_prop "rating") with "ratingValue".
  now rewrite Hitem, Haria, class_scan_rating, Hclass.
Qed.

Lemma read_json_data_first (pre post : list JSON) (o : JSON)
  (path : list string) (v : string) :
  Forall (fun o' => Parser.read_one o' path = None) pre ->
  Parser.read_one o path = Some v ->
  Parser.read_json_data (pre ++ o :: post) path = Some v.
Proof.
  intros Hpre Ho. induction Hpre as [|o' pre Ho' _ IH]; simpl.
  - now rewrite Ho.
  - now rewrite Ho'.
Qed.

Section Extractor.

Variable json_loads : string -> Result JSON.
Variable urljoin : string -> string -> Result string.
Variable BeautifulSoup : string -> Result Parser.Soup.

Abbreviation extract_structured_data :=
  (Parser.extract_structured_data json_loads urljoin BeautifulSoup).

(** C7 (as amended): on a page without rating markers, the rating is the
    [aggregateRating.ratingValue] of the first JSON-LD object that holds
    a string, a number or a boolean there; when that object holds the
    string "4.5" the rating is "4.5". *)
Theorem rating_falls_back_to_json_ld
  (u html : string) (soup : Parser.Soup) (pre post : list JSON) (o : JSON) :
  BeautifulSoup html = Ok soup ->
  no_rating_markers soup ->
  Parser.get_json_ld json_loads soup = (pre ++ o :: post)%list ->
  Forall (fun o' => Parser.read_one o' ["aggregateRating"; "ratingValue"] = None) pre ->
  Parser.walk o ["aggregateRating"; "ratingValue"] = Some (JStr "4.5") ->
  rating (extract_structured_data u html) = Some "4.5".
Proof.
  intros Hsoup Hno Hld Hpre Ho. unfold Parser.extract_structured_data.
  rewrite Hsoup. cbn [rating]. rewrite (get_metric_no_markers soup Hno), Hld.
  cbn [Parser.if_None]. apply read_json_data_first; [assumption |].
  unfold Parser.read_one. now rewrite Ho.
Qed.

(** C8: when the only rating marker of a page is a tag of class
    "star-rating Three" without text, the rating is "Three". *)
Theorem class_only_rating
  (u html : string) (soup : Parser.Soup) (e : Node) :
  BeautifulSoup html = Ok soup ->
  Parser.find soup (Parser.attr_is "itemprop" "ratingValue") = None ->
  Parser.find soup (Parser.aria_matches "rating") = None ->
  Parser.find_all soup rating_by_class = [e] ->
  Parser.get_class e = Some ["star-rating"; "Three"] ->
  Parser.get_text " " e = "" ->
  Parser.get_metric soup "rating" = Some "Three"
  /\ rating (extract_structured_data u html) = Some "Three".
Proof.
  intros Hsoup Hitem Haria Honly Hclass Htext.
  assert (Hm : Parser.get_metric soup "rating" = Some "Three").
  { unfold Parser.get_metric.
    change (Parser.metric_item_prop "rating") with "ratingValue".
    rewrite Hitem, Haria, class_scan_rating, Honly.
    cbn [Parser.class_scan]. unfold Parser.combined_class, Parser.get_text_clean.
    rewrite Hclass, Htext. reflexivity. }
  split; [exact Hm |].
  unfold Parser.extract_structured_data. rewrite Hsoup. cbn [rating].
  now rewrite Hm.
Qed.

(** What the loop of [get_btns] keeps comes from its body. *)
Lemma get_btns_loop_from (page : string) (es : list Node) (c : CTA) :
  In c (Parser.get_btns_loop urljoin page es) ->
  exists e, In e es /\ Parser.cta_of urljoin page e = Ok (Some c).
Proof.
  induction es as [|e es IH]; [intros [] |].
  cbn [Parser.get_btns_loop].
  destruct (Parser.cta_of urljoin page e) as [[c'|]|err] eqn:He.
  - intros [<- | Hin].
    + exists e. split; [now left | assumption].
    + destruct (IH Hin) as (e' & He' & Hc). exists e'. split; [now right | assumption].
  - intros Hin. destruct (IH Hin) as (e' & He' & Hc).
    exists e'. split; [now right | assumption].
  - intros [].
Qed.

(** The body of the loop never emits an empty text, and gives an empty
    href to whatever is not a link. *)
Lemma cta_of_emitted (page : string) (e : Node) (c : CTA) :
  Parser.cta_of urljoin page e = Ok (Some c) ->
  cta_text c <> "" /\ (Parser.tag_name e <> "a" -> cta_href c = "").
Proof.
  unfold Parser.cta_of.
  set (t := if String.eqb (Parser.tag_name e) "input" then _ else _).
  destruct (_ && _ && _); [discriminate |].
  destruct (Str.truthy t) eqn:Ht; cbn [negb]; [| discriminate].
  destruct (String.eqb (Parser.tag_name e) "a") eqn:Ha.
  - apply String.eqb_eq in Ha.
    destruct (if Str.truthy _ then _ else _) as [h|err]; cbv beta iota;
      [| discriminate].
    destruct (existsb _ _); [| discriminate].
    intros [= <-]. simpl. split; [| congruence].
    intros ->. discriminate Ht.
  - destruct (existsb _ _); [| discriminate].
    intros [= <-]. simpl. split; [| reflexivity].
    intros ->. discriminate Ht.
Qed.

(** C10: every CTA that [get_btns] returns was emitted for one of the
    link, button or input tags of the page, has a non-empty text, and has an
    empty href whenever the tag it was emitted for is not a link. *)
Theorem get_btns_entries (soup : Parser.Soup) (page : string) (c : CTA) :
  In c (Parser.get_btns urljoin soup page) ->
  cta_text c <> ""
  /\ (exists e, In e (Parser.find_all soup Parser.is_btn_tag)
                /\ Parser.cta_of urljoin page e = Ok (Some c))
  /\ (forall e, Parser.cta_of urljoin page e = Ok (Some c) ->
                Parser.tag_name e <> "a" -> cta_href c = "").
Proof.
  intros Hin. destruct (get_btns_loop_from page _ c Hin) as (e & He & Hc).
  split; [exact (proj1 (cta_of_emitted page e c Hc)) |].
  split; [exists e; now split |].
  intros e' Hc'. exact (proj2 (cta_of_emitted page e' c Hc')).
Qed.

End Extractor.

Lemma rating_falls_back_to_json_ld_witness :
  no_rating_markers Sample.one_rating_page
  /\ Parser.get_json_ld Sample.json_loads Sample.one_rating_page = [Sample.rated "4.5"]
  /\ rating (Parser.extract_structured_data Sample.json_loads Urllib.urljoin
               (Sample.soup_of Sample.one_rating_page) Sample.page_url "<html>")
     = Some "4.5".
Proof.
  assert (Hno : no_rating_markers Sample.one_rating_page)
    by (repeat split; reflexivity).
  split; [exact Hno |]. split; [reflexivity |].
  exact (rating_falls_back_to_json_ld Sample.json_loads Urllib.urljoin
           (Sample.soup_of Sample.one_rating_page) Sample.page_url "<html>"
           Sample.one_rating_page [] [] (Sample.rated "4.5")
           eq_refl Hno eq_refl (List.Forall_nil _) eq_refl).
Defined.

(** C7 (as stated) fails: a page without rating markers whose JSON-LD
    block lists an object rated "3.0" before the one rated "4.5" gets the
    rating "3.0". *)
Lemma rating_is_first_json_ld_value :
  no_rating_markers Sample.two_ratings_page
  /\ In (Sample.rated "4.5")
        (Parser.get_json_ld Sample.json_loads Sample.two_ratings_page)
  /\ Parser.walk (Sample.rated "4.5") ["aggregateRating"; "ratingValue"]
     = Some (JStr "4.5")
  /\ rating (Parser.extract_structured_data Sample.json_loads Urllib.urljoin
               (Sample.soup_of Sample.two_ratings_page) Sample.page_url "<html>")
     = Some "3.0"
  /\ rating (Parser.extract_structured_data Sample.json_loads Urllib.urljoin
               (Sample.soup_of Sample.two_ratings_page) Sample.page_url "<html>")
     <> Some "4.5".
Proof.
  split; [repeat split; reflexivity |].
  split; [right; left; reflexivity |].
  split; [reflexivity |]. split; [reflexivity | discriminate].
Qed.

Lemma class_only_rating_witness :
  Parser.find_all Sample.product_page rating_by_class = [Sample.star_rating]
  /\ Parser.get_text " " Sample.star_rating = ""
  /\ rating (Parser.extract_structured_data Sample.json_loads Urllib.urljoin
               (Sample.soup_of Sample.product_page) Sample.page_url "<html>")
     = Some "Three".
Proof.
  split; [reflexivity |]. split; [reflexivity |].
  exact (proj2 (class_only_rating Sample.json_loads Urllib.urljoin
                  (Sample.soup_of Sample.product_page) Sample.page_url "<html>"
                  Sample.product_page Sample.star_rating
                  eq_refl eq_refl eq_refl eq_refl eq_refl eq_refl)).
Defined.

Lemma get_btns_entries_witness :
  In (mkCTA "Buy now" "")
     (Parser.get_btns Urllib.urljoin Sample.signup_page Sample.page_url)
  /\ cta_text (mkCTA "Buy now" "") <> ""
  /\ (Parser.cta_of Urllib.urljoin Sample.page_url Sample.buy_button
      = Ok (Some (mkCTA "Buy now" "")) ->
      Parser.tag_name Sample.buy_button <> "a" ->
      cta_href (mkCTA "Buy now" "") = "").
Proof.
  assert (Hin : In (mkCTA "Buy now" "")
                  (Parser.get_btns Urllib.urljoin Sample.signup_page Sample.page_url))
    by (right; left; reflexivity).
  destruct (get_btns_entries Urllib.urljoin Sample.signup_page Sample.page_url
              (mkCTA "Buy now" "") Hin) as (Htext & _ & Hhref).
  split; [exact Hin |]. split; [exact Htext |].
  exact (Hhref Sample.buy_button).
Defined.

(** ** Links resolved with [urljoin] *)

Section Links.

Variable urljoin : string -> string -> Result string.

(** When resolving the href of a link does not raise, the loop body of
    [get_btns] does not raise on it; on a button or an input it never
    does. *)
Lemma cta_of_no_raise (page : string) (e : Node) :
  (Parser.tag_name e = "a" -> link_href e <> "" ->
   exists r, urljoin page (link_href e) = Ok r) ->
  exists r, Parser.cta_of urljoin page e = Ok r.
Proof.
  intros Hhref. unfold Parser.cta_of.
  destruct (_ && _ && _); [eauto |].
  destruct (negb _); [eauto |].
  destruct (String.eqb (Parser.tag_name e) "a") eqn:Ha.
  - apply String.eqb_eq in Ha. fold (link_href e).
    destruct (Str.truthy (link_href e)) eqn:Ht.
    + destruct (Hhref Ha (truthy_nonempty _ Ht)) as [h ->].
      cbv beta iota. destruct (existsb _ _); eauto.
    + cbv beta iota. destruct (existsb _ _); eauto.
  - cbv beta iota. destruct (existsb _ _); eauto.
Qed.

(** The loop of [get_btns] reaches an element when no link before it
    makes [urljoin] raise. *)
Lemma get_btns_loop_reaches (page : string) (before after : list Node)
  (e : Node) (c : CTA) :
  (forall e', In e' before -> Parser.tag_name e' = "a" -> link_href e' <> "" ->
              exists r, urljoin page (link_href e') = Ok r) ->
  Parser.cta_of urljoin page e = Ok (Some c) ->
  In c (Parser.get_btns_loop urljoin page (before ++ e :: after)).
Proof.
  intros Hbefore Hc. induction before as [|b before IH]; cbn [app Parser.get_btns_loop].
  - rewrite Hc. now left.
  - destruct (cta_of_no_raise page b (Hbefore b (or_introl eq_refl))) as [[c'|] ->];
      [right |]; apply IH; intros e' He'; apply Hbefore; now right.
Qed.

(** C9 (as amended): on the page https://example.com/x, a link of text
    "Sign Up Free" and href "/join" gives a CTA, its text holding the
    keywords "sign" and "free", whose href is the reference resolved
    against the page URL, https://example.com/join, provided that
    resolving the hrefs of the links before it on the page does not raise
    (a raise ends the scan before the link is reached). *)
Theorem signup_link_cta
  (soup : Parser.Soup) (before after : list Node) (attrs : gmap string string)
  (cls : option (list string)) (contents : list Node) :
  Parser.find_all soup Parser.is_btn_tag
  = (before ++ Tag "a" attrs cls contents :: after)%list ->
  (forall e', In e' before -> Parser.tag_name e' = "a" -> link_href e' <> "" ->
              exists r, urljoin "https://example.com/x" (link_href e') = Ok r) ->
  attrs !! "href" = Some "/join" ->
  Parser.get_text " " (Tag "a" attrs cls contents) = "Sign Up Free" ->
  urljoin "https://example.com/x" "/join" = Ok "https://example.com/join" ->
  In (mkCTA "Sign Up Free" "https://example.com/join")
     (Parser.get_btns urljoin soup "https://example.com/x")
  /\ Str.contains "sign" (Str.lower "Sign Up Free") = true
  /\ Str.contains "free" (Str.lower "Sign Up Free") = true.
Proof.
  intros Hall Hbefore Hhref Htext Hjoin. split; [| split; reflexivity].
  unfold Parser.get_btns. rewrite Hall.
  apply get_btns_loop_reaches; [exact Hbefore |].
  unfold Parser.cta_of, Parser.get_text_clean.
  cbn [Parser.tag_name Parser.get]. rewrite Hhref, Htext.
  change (Str.strip (default "" (Some "/join"))) with "/join".
  change (Str.truthy "/join") with true.
  change (String.eqb "a" "a") with true. cbv beta iota.
  rewrite Hjoin. reflexivity.
Qed.

End Links.

Lemma signup_link_cta_witness :
  Parser.find_all Sample.link_between_buttons Parser.is_btn_tag
  = [Sample.buy_button; Sample.signup_link; Sample.buy_button]
  /\ Urllib.urljoin "https://example.com/x" "/join" = Ok "https://example.com/join"
  /\ In (mkCTA "Sign Up Free" "https://example.com/join")
        (Parser.get_btns Urllib.urljoin Sample.link_between_buttons
           "https://example.com/x").
Proof.
  split; [reflexivity |]. split; [reflexivity |].
  refine (proj1 (signup_link_cta Urllib.urljoin Sample.link_between_buttons
                   [Sample.buy_button] [Sample.buy_button]
                   {[ "href" := "/join" ]} None [NavigableString "Sign Up Free"]
                   eq_refl _ eq_refl eq_refl eq_refl)).
  intros e' [<- | []] Ha. discriminate Ha.
Defined.

(** C9 (as stated) fails: the CTA of the link has the href
    https://example.com/join, and no CTA of the page has the href
    https://example.com/x/join. *)
Lemma signup_link_href_is_not_under_x :
  Parser.get_btns Urllib.urljoin Sample.signup_page "https://example.com/x"
  = [mkCTA "Sign Up Free" "https://example.com/join"; mkCTA "Buy now" ""]
  /\ ~ (exists c,
          In c (Parser.get_btns Urllib.urljoin Sample.signup_page
                  "https://example.com/x")
          /\ cta_href c = "https://example.com/x/join").
Proof.
  split; [reflexivity |].
  intros (c & [<- | [<- | []]] & Hc); discriminate Hc.
Qed.

(** * Further properties *)

(** ** The fetcher: transient failures, final answers, bounds *)

Section FetcherMore.

Variable requests_get : string -> nat -> Result Response.

Lemma unflagged_not_403 (r : Response) :
  Parser.check_blocking r = false -> (status_code r =? 403) = false.
Proof.
  unfold Parser.check_blocking. cbn [existsb].
  destruct (status_code r =? 403); [discriminate | reflexivity].
Qed.

Lemma attempt_transient (url : string) (tries wait i : Z) (w : World) :
  0 <= wait -> wait * 2 ^ tries <= SLEEP_SAFE -> 0 <= i < tries ->
  transient (requests_get url (gets w)) ->
  Main.attempt requests_get url tries wait i w
  = (Main.Continue, log (Sleep (wait * 2 ^ i)) (log (Get url) w)).
Proof.
  intros Hw Hfit Hi Htr.
  destruct (requests_get url (gets w)) as [r|e] eqn:Hget.
  - destruct Htr as [Hin Hb]. now apply attempt_retry with (r := r).
  - unfold Main.attempt, Main.on_error. rewrite Hget.
    replace (i <? tries) with true by lia.
    now rewrite (backoff_sleep_accepted tries wait i _ Hw Hfit ltac:(lia)).
Qed.

(** [k] transient answers in a row, retries being left after each: the
    loop has made [k] requests, each followed by its backoff sleep, and
    goes on with attempt [i + k]. *)
Lemma fetch_loop_transient (url : string) (tries wait : Z) :
  0 <= wait -> wait * 2 ^ tries <= SLEEP_SAFE ->
  forall (k m : nat) (i : Z) (w : World),
    0 <= i -> i + Z.of_nat k <= tries ->
    (forall j, (j < k)%nat -> transient (requests_get url (gets w + j)%nat)) ->
    Main.fetch_loop requests_get url tries wait (k + m) i w
    = Main.fetch_loop requests_get url tries wait m (i + Z.of_nat k)
        {| trace := trace w ++ backoff_trace url wait i k;
           _ROBOTS_CACHE := _ROBOTS_CACHE w |}.
Proof.
  intros Hw Hfit k. induction k as [|k IH]; intros m i w Hi Hk Hall.
  - cbn [Nat.add backoff_trace seq flat_map]. rewrite app_nil_r, world_eta.
    now rewrite Z.add_0_r.
  - change (S k + m)%nat with (S (k + m)). cbn [Main.fetch_loop].
    rewrite attempt_transient; [| assumption | assumption | lia |].
    + rewrite IH; [| lia | lia |].
      * f_equal; [lia |]. rewrite !log_trace, backoff_trace_S.
        rewrite <- !app_assoc. reflexivity.
      * intros j Hj. rewrite !gets_log. simpl.
        replace (gets w + 1 + 0 + j)%nat with (gets w + S j)%nat by lia.
        apply Hall. lia.
    + specialize (Hall O ltac:(lia)). now rewrite Nat.add_0_r in Hall.
Qed.

(** The same, from the start of [fetch_url_data]. *)
Lemma fetch_after_transients (url : string) (tries wait : Z) (w : World) (k : nat) :
  0 <= wait -> wait * 2 ^ tries <= SLEEP_SAFE -> Z.of_nat k <= tries ->
  (forall j, (j < k)%nat -> transient (requests_get url (gets w + j)%nat)) ->
  Main.fetch_url_data requests_get url tries wait w
  = Main.fetch_loop requests_get url tries wait (S (Z.to_nat tries - k)) (Z.of_nat k)
      {| trace := trace w ++ backoff_trace url wait 0 k;
         _ROBOTS_CACHE := _ROBOTS_CACHE w |}.
Proof.
  intros Hw Hfit Hk Hall. unfold Main.fetch_url_data.
  replace (Z.to_nat (tries + 1)) with (k + S (Z.to_nat tries - k))%nat by lia.
  rewrite (fetch_loop_transient url tries wait Hw Hfit k _ 0 w);
    [ | lia | lia | assumption].
  reflexivity.
Qed.

Lemma gets_after_backoff (url : string) (wait : Z) (w : World) (k : nat) :
  gets {| trace := trace w ++ backoff_trace url wait 0 k;
          _ROBOTS_CACHE := _ROBOTS_CACHE w |} = (gets w + k)%nat.
Proof.
  unfold gets. cbn [trace]. rewrite List.filter_app, List.length_app. f_equal.
  unfold backoff_trace. generalize 0%nat as s.
  induction k as [|k IH]; intros s; [reflexivity |].
  cbn [seq flat_map]. cbn [app List.filter is_get length]. now rewrite IH.
Qed.

Lemma fetch_all_raise (url : string) (tries wait : Z) (w : World) :
  0 <= tries -> 0 <= wait -> wait * 2 ^ tries <= SLEEP_SAFE ->
  (forall j, (j <= Z.to_nat tries)%nat ->
     exists e, requests_get url (gets w + j)%nat = Raise e) ->
  Main.fetch_url_data requests_get url tries wait w
  = (Ok None,
     {| trace := trace w ++ backoff_trace url wait 0 (Z.to_nat tries) ++ [Get url];
        _ROBOTS_CACHE := _ROBOTS_CACHE w |}).
Proof.
  intros Ht Hw Hfit Hall.
  rewrite (fetch_after_transients url tries wait w (Z.to_nat tries));
    [| lia | assumption | lia |].
  - rewrite Nat.sub_diag. cbn [Main.fetch_loop]. unfold Main.attempt.
    rewrite gets_after_backoff.
    destruct (Hall (Z.to_nat tries) ltac:(lia)) as [e ->].
    unfold Main.on_error. rewrite Z2Nat.id, Z.ltb_irrefl by lia.
    unfold log. cbn [trace _ROBOTS_CACHE]. now rewrite <- app_assoc.
  - intros j Hj. destruct (Hall j ltac:(lia)) as [e ->]. exact I.
Qed.

(** X1: when every attempt ends in a transport error and the longest
    backoff is a length every platform sleeps ([wait * 2^tries] at most
    [SLEEP_SAFE]), the fetcher makes [tries + 1] requests, sleeps
    [wait * 2^i] after attempt [i] for each [i < tries], and returns
    [None]. *)
Theorem fetch_transport_errors_exhaust (url : string) (tries wait : Z) (w : World) :
  0 <= tries -> 0 <= wait -> wait * 2 ^ tries <= SLEEP_SAFE ->
  (forall j, (j <= Z.to_nat tries)%nat ->
     exists e, requests_get url (gets w + j)%nat = Raise e) ->
  Main.fetch_url_data requests_get url tries wait w
  = (Ok None,
     {| trace := trace w ++ backoff_trace url wait 0 (Z.to_nat tries) ++ [Get url];
        _ROBOTS_CACHE := _ROBOTS_CACHE w |}).
Proof. intros Ht Hw Hfit Hall. now apply fetch_all_raise. Qed.

Lemma fetch_recovers
  (url : string) (tries wait : Z) (w : World) (k : nat) (r : Response) :
  0 <= wait -> wait * 2 ^ tries <= SLEEP_SAFE -> Z.of_nat k <= tries ->
  (forall j, (j < k)%nat -> transient (requests_get url (gets w + j)%nat)) ->
  requests_get url (gets w + k)%nat = Ok r ->
  Parser.check_blocking r = false ->
  status_code r < 400 ->
  Main.fetch_url_data requests_get url tries wait w
  = (Ok (Some (Main.mkFetched r false)),
     {| trace := trace w ++ backoff_trace url wait 0 k ++ [Get url];
        _ROBOTS_CACHE := _ROBOTS_CACHE w |}).
Proof.
  intros Hw Hfit Hk Hall Hget Hb Hst.
  rewrite (fetch_after_transients url tries wait w k Hw Hfit Hk Hall).
  cbn [Main.fetch_loop]. unfold Main.attempt.
  rewrite gets_after_backoff, Hget, Hb, (unflagged_not_403 r Hb).
  replace (existsb (Z.eqb (status_code r)) Main.retry_codes) with false.
  - replace (status_code r >=? 400) with false by lia.
    unfold log. cbn [trace _ROBOTS_CACHE]. now rewrite <- app_assoc.
  - symmetry. unfold Main.retry_codes. cbn [existsb]. lia.
Qed.

(** X2: after [k] transient failures ([k <= tries]), the longest backoff
    being a length every platform sleeps ([wait * 2^tries] at most
    [SLEEP_SAFE]), an unflagged response with a status below 400 is
    returned as it is, unflagged; the fetcher has made [k + 1] requests and
    [k] backoff sleeps. *)
Theorem fetch_recovers_after_transients
  (url : string) (tries wait : Z) (w : World) (k : nat) (r : Response) :
  0 <= wait -> wait * 2 ^ tries <= SLEEP_SAFE -> Z.of_nat k <= tries ->
  (forall j, (j < k)%nat -> transient (requests_get url (gets w + j)%nat)) ->
  requests_get url (gets w + k)%nat = Ok r ->
  Parser.check_blocking r = false ->
  status_code r < 400 ->
  Main.fetch_url_data requests_get url tries wait w
  = (Ok (Some (Main.mkFetched r false)),
     {| trace := trace w ++ backoff_trace url wait 0 k ++ [Get url];
        _ROBOTS_CACHE := _ROBOTS_CACHE w |}).
Proof. intros. now apply fetch_recovers. Qed.

(** X3: after [k] transient failures, the longest backoff being a length
    every platform sleeps ([wait * 2^tries] at most [SLEEP_SAFE]), an
    unflagged response with a status of 400 or more outside the retryable
    set ends the fetch with [None]: no further request, no further sleep. *)
Theorem fetch_client_error_not_retried
  (url : string) (tries wait : Z) (w : World) (k : nat) (r : Response) :
  0 <= wait -> wait * 2 ^ tries <= SLEEP_SAFE -> Z.of_nat k <= tries ->
  (forall j, (j < k)%nat -> transient (requests_get url (gets w + j)%nat)) ->
  requests_get url (gets w + k)%nat = Ok r ->
  Parser.check_blocking r = false ->
  400 <= status_code r ->
  ~ In (status_code r) Main.retry_codes ->
  Main.fetch_url_data requests_get url tries wait w
  = (Ok None,
     {| trace := trace w ++ backoff_trace url wait 0 k ++ [Get url];
        _ROBOTS_CACHE := _ROBOTS_CACHE w |}).
Proof.
  intros Hw Hfit Hk Hall Hget Hb Hst Hnot.
  rewrite (fetch_after_transients url tries wait w k Hw Hfit Hk Hall).
  cbn [Main.fetch_loop]. unfold Main.attempt.
  rewrite gets_after_backoff, Hget, Hb, (unflagged_not_403 r Hb).
  replace (existsb (Z.eqb (status_code r)) Main.retry_codes) with false.
  - replace (status_code r >=? 400) with true by lia.
    unfold log. cbn [trace _ROBOTS_CACHE]. now rewrite <- app_assoc.
  - symmetry. apply not_true_is_false. intros Hex.
    apply existsb_exists in Hex. destruct Hex as (c & Hc & Heq).
    apply Z.eqb_eq in Heq. subst c. contradiction.
Qed.

(** With a negative [tries] the loop has no iteration: no request is
    made and the fetch is [None]. *)
Theorem fetch_negative_tries (url : string) (tries wait : Z) (w : World) :
  tries < 0 ->
  Main.fetch_url_data requests_get url tries wait w = (Ok None, w).
Proof.
  intros Ht. unfold Main.fetch_url_data.
  now replace (Z.to_nat (tries + 1)) with O by lia.
Qed.

End FetcherMore.

Section FetcherInvariants.

Variable requests_get : string -> nat -> Result Response.

Lemma robots_reads_log (ev : Event) (w : World) :
  robots_reads (log ev w)
  = (robots_reads w + (if is_robots_read ev then 1 else 0))%nat.
Proof.
  unfold robots_reads, log; simpl. rewrite List.filter_app, List.length_app. simpl.
  now destruct (is_robots_read ev).
Qed.

(** The backoff of the pipeline, 2, 4 and 8 seconds, fits. *)
Lemma default_backoff_fits : 2 * 2 ^ 3 <= SLEEP_SAFE.
Proof. discriminate. Qed.

(** A sleep either is logged or raises. *)
Lemma time_sleep_cases (seconds : Z) (w : World) :
  time_sleep seconds w = Ok (log (Sleep seconds) w)
  \/ exists e, time_sleep seconds w = Raise e.
Proof.
  unfold time_sleep. destruct (seconds <? 0); [right; eauto |].
  destruct (SLEEP_OVERFLOW <? seconds); [right; eauto | now left].
Qed.

(** One attempt makes one request and at most one sleep. *)
Lemma attempt_world (url : string) (tries wait i : Z) (w : World) :
  snd (Main.attempt requests_get url tries wait i w) = log (Get url) w
  \/ exists s, snd (Main.attempt requests_get url tries wait i w)
               = log (Sleep s) (log (Get url) w).
Proof.
  unfold Main.attempt, Main.on_error.
  destruct (requests_get url (gets w)) as [r|e].
  - destruct (Parser.check_blocking r); [now left |].
    destruct (status_code r =? 403); [now left |].
    destruct (existsb _ _); [| destruct (_ >=? _); now left].
    destruct (i <? tries); [| now left].
    destruct (time_sleep_cases (wait * 2 ^ i) (log (Get url) w)) as [-> | [e ->]];
      [right; eauto | now left].
  - destruct (i <? tries); [| now left].
    destruct (time_sleep_cases (wait * 2 ^ i) (log (Get url) w)) as [-> | [e' ->]];
      [right; eauto | now left].
Qed.

Lemma attempt_effects (url : string) (tries wait i : Z) (w : World) :
  let w' := snd (Main.attempt requests_get url tries wait i w) in
  gets w' = S (gets w)
  /\ robots_reads w' = robots_reads w
  /\ _ROBOTS_CACHE w' = _ROBOTS_CACHE w.
Proof.
  intros w'. subst w'.
  destruct (attempt_world url tries wait i w) as [-> | [s ->]];
    rewrite ?gets_log, ?robots_reads_log; simpl; repeat split; lia.
Qed.

Lemma fetch_loop_effects (url : string) (tries wait : Z) (n : nat) :
  forall (i : Z) (w : World),
    let w' := snd (Main.fetch_loop requests_get url tries wait n i w) in
    (gets w <= gets w' <= gets w + n)%nat
    /\ (n <> O -> (gets w < gets w')%nat)
    /\ robots_reads w' = robots_reads w
    /\ _ROBOTS_CACHE w' = _ROBOTS_CACHE w.
Proof.
  induction n as [|n IH]; intros i w; cbn [Main.fetch_loop].
  - simpl. repeat split; lia.
  - pose proof (attempt_effects url tries wait i w) as (Hg & Hr & Hc).
    destruct (Main.attempt requests_get url tries wait i w) as [[|r] w1];
      cbn [snd] in *.
    + specialize (IH (i + 1) w1). cbn zeta in IH.
      destruct IH as (Hb & _ & Hr' & Hc').
      repeat split; try lia; congruence.
    + repeat split; try lia; congruence.
Qed.

(** X4: whatever the network answers, a fetch makes at least one (when
    [tries] is not negative) and at most [tries + 1] requests, reads no
    robots.txt and leaves the robots cache as it was. *)
Theorem fetch_request_bound (url : string) (tries wait : Z) (w : World) :
  let w' := snd (Main.fetch_url_data requests_get url tries wait w) in
  (gets w <= gets w' <= gets w + Z.to_nat (tries + 1))%nat
  /\ (0 <= tries -> (gets w < gets w')%nat)
  /\ robots_reads w' = robots_reads w
  /\ _ROBOTS_CACHE w' = _ROBOTS_CACHE w.
Proof.
  intros w'. subst w'. unfold Main.fetch_url_data.
  pose proof (fetch_loop_effects url tries wait (Z.to_nat (tries + 1)) 0 w)
    as (Hb & Hpos & Hr & Hc).
  repeat split; try lia; try assumption; intros Ht; apply Hpos; lia.
Qed.

Lemma attempt_returns (url : string) (tries wait i : Z) (w w' : World)
  (f : Main.Fetched) :
  Main.attempt requests_get url tries wait i w = (Main.Return (Ok (Some f)), w') ->
  requests_get url (gets w) = Ok (Main.response f)
  /\ Main._was_blocked f = Parser.check_blocking (Main.response f)
  /\ (Main._was_blocked f = false -> status_code (Main.response f) < 400).
Proof.
  unfold Main.attempt, Main.on_error.
  destruct (requests_get url (gets w)) as [r|e].
  - destruct (Parser.check_blocking r) eqn:Hb.
    + intros [= <- _]. cbn. rewrite Hb. repeat split. discriminate.
    + rewrite (unflagged_not_403 r Hb).
      destruct (existsb _ _).
      * destruct (i <? tries); [| discriminate].
        destruct (time_sleep_cases (wait * 2 ^ i) (log (Get url) w))
          as [-> | [e ->]]; discriminate.
      * destruct (status_code r >=? 400) eqn:Hst; [discriminate |].
        intros [= <- _]. cbn. rewrite Hb. repeat split. intros _. lia.
  - destruct (i <? tries); [| discriminate].
    destruct (time_sleep_cases (wait * 2 ^ i) (log (Get url) w))
      as [-> | [e' ->]]; discriminate.
Qed.

Lemma fetch_loop_returns (url : string) (tries wait : Z) (n : nat) :
  forall (i : Z) (w w' : World) (f : Main.Fetched),
    Main.fetch_loop requests_get url tries wait n i w = (Ok (Some f), w') ->
    (exists j, (gets w <= j < gets w')%nat
               /\ requests_get url j = Ok (Main.response f))
    /\ Main._was_blocked f = Parser.check_blocking (Main.response f)
    /\ (Main._was_blocked f = false -> status_code (Main.response f) < 400).
Proof.
  induction n as [|n IH]; intros i w w' f; cbn [Main.fetch_loop]; [discriminate |].
  pose proof (attempt_effects url tries wait i w) as (Hg & _).
  destruct (Main.attempt requests_get url tries wait i w) as [[|r] w1] eqn:Ha;
    cbn [snd] in Hg.
  - intros Hloop. destruct (IH _ _ _ _ Hloop) as ((j & Hj & Hget) & Hrest).
    split; [| exact Hrest]. exists j. split; [lia | exact Hget].
  - intros [= -> ->]. destruct (attempt_returns _ _ _ _ _ _ _ Ha) as (Hget & Hrest).
    split; [| exact Hrest]. exists (gets w). split; [lia | exact Hget].
Qed.

(** X5: a response that [fetch_url_data] returns is one the network gave
    during this fetch; its flag is the verdict of [check_blocking] on it;
    and when it is not flagged its status is below 400.  So the pipeline
    never sees an unflagged response with an error status. *)
Theorem fetch_returns_classified
  (url : string) (tries wait : Z) (w w' : World) (f : Main.Fetched) :
  Main.fetch_url_data requests_get url tries wait w = (Ok (Some f), w') ->
  (exists j, (gets w <= j < gets w')%nat
             /\ requests_get url j = Ok (Main.response f))
  /\ Main._was_blocked f = Parser.check_blocking (Main.response f)
  /\ (Main._was_blocked f = false -> status_code (Main.response f) < 400)
  /\ outcome (Some f) <> Failed.
Proof.
  intros Hf. unfold Main.fetch_url_data in Hf.
  destruct (fetch_loop_returns _ _ _ _ _ _ _ _ Hf) as (Hj & Hflag & Hst).
  repeat split; try assumption.
  unfold outcome. destruct (Main._was_blocked f); [discriminate |].
  specialize (Hst eq_refl).
  replace (status_code (Main.response f) >=? 400) with false by lia.
  discriminate.
Qed.

End FetcherInvariants.

Lemma fetch_transport_errors_exhaust_witness :
  Main.fetch_url_data Sample.down Sample.page_url 3 2 Sample.empty_world
  = (Ok None,
     {| trace := [ Get Sample.page_url; Sleep 2; Get Sample.page_url; Sleep 4;
                   Get Sample.page_url; Sleep 8; Get Sample.page_url ];
        _ROBOTS_CACHE := ∅ |}).
Proof.
  refine (fetch_transport_errors_exhaust Sample.down Sample.page_url 3 2
            Sample.empty_world _ _ _ _); [lia | lia | discriminate |].
  intros j _. exists RequestException. reflexivity.
Defined.

Lemma flaky_transient (j : nat) :
  (j < 2)%nat -> transient (Sample.flaky Sample.page_url (gets Sample.empty_world + j)).
Proof. intros Hj. destruct j as [|[|j]]; [exact I | exact I | lia]. Defined.

Lemma fetch_recovers_after_transients_witness :
  Main.fetch_url_data Sample.flaky Sample.page_url 3 2 Sample.empty_world
  = (Ok (Some (Main.mkFetched Sample.plain_page false)),
     {| trace := [ Get Sample.page_url; Sleep 2; Get Sample.page_url; Sleep 4;
                   Get Sample.page_url ];
        _ROBOTS_CACHE := ∅ |}).
Proof.
  refine (fetch_recovers_after_transients Sample.flaky Sample.page_url 3 2
            Sample.empty_world 2 Sample.plain_page _ _ _ flaky_transient
            eq_refl eq_refl _); try discriminate; simpl; lia.
Defined.

Lemma flaky_not_found_transient (j : nat) :
  (j < 2)%nat ->
  transient (Sample.flaky_not_found Sample.page_url (gets Sample.empty_world + j)).
Proof. intros Hj. destruct j as [|[|j]]; [exact I | exact I | lia]. Defined.

Lemma fetch_client_error_not_retried_witness :
  Main.fetch_url_data Sample.flaky_not_found Sample.page_url 3 2 Sample.empty_world
  = (Ok None,
     {| trace := [ Get Sample.page_url; Sleep 2; Get Sample.page_url; Sleep 4;
                   Get Sample.page_url ];
        _ROBOTS_CACHE := ∅ |}).
Proof.
  refine (fetch_client_error_not_retried Sample.flaky_not_found Sample.page_url 3 2
            Sample.empty_world 2 Sample.not_found _ _ _ flaky_not_found_transient
            eq_refl eq_refl _ _); try discriminate; simpl; lia.
Defined.

Lemma fetch_negative_tries_witness :
  -1 < 0
  /\ Main.fetch_url_data Sample.down Sample.page_url (-1) 2 Sample.empty_world
     = (Ok None, Sample.empty_world).
Proof.
  split; [lia |].
  apply (fetch_negative_tries Sample.down Sample.page_url (-1) 2 Sample.empty_world).
  lia.
Defined.

Lemma fetch_request_bound_witness :
  (gets Sample.empty_world
   < gets (snd (Main.fetch_url_data Sample.flaky Sample.page_url 3 2
                  Sample.empty_world)))%nat.
Proof.
  apply (proj1 (proj2 (fetch_request_bound Sample.flaky Sample.page_url 3 2
                         Sample.empty_world))).
  lia.
Defined.

Lemma fetch_returns_classified_witness :
  Main._was_blocked (Main.mkFetched Sample.forbidden true)
  = Parser.check_blocking (Main.response (Main.mkFetched Sample.forbidden true))
  /\ outcome (Some (Main.mkFetched Sample.forbidden true)) <> Failed.
Proof.
  destruct (fetch_returns_classified (Sample.always Sample.forbidden)
              Sample.page_url 3 2 Sample.empty_world
              (log (Get Sample.page_url) Sample.empty_world)
              (Main.mkFetched Sample.forbidden true) eq_refl)
    as (_ & Hflag & _ & Hout).
  split; [exact Hflag | exact Hout].
Defined.

(** ** The robots cache *)

Section RobotsCache.

Variable urlparse : string -> Result (string * string).
Variable robots_read : string -> nat -> Result RobotFileParser.

Abbreviation is_allowed := (Robots.is_allowed urlparse robots_read).
Abbreviation _get_robot_parser := (Robots._get_robot_parser robots_read).
Abbreviation _get_base_domain := (Robots._get_base_domain urlparse).

(** The three ways [_get_robot_parser] can leave the world. *)
Lemma get_robot_parser_world (base : string) (w : World) :
  (exists p, _ROBOTS_CACHE w !! base = Some p
             /\ _get_robot_parser base w = (Some p, w))
  \/ (exists e, _ROBOTS_CACHE w !! base = None
                /\ robots_read (robots_url base) (robots_reads w) = Raise e
                /\ _get_robot_parser base w = (None, log (RobotsRead (robots_url base)) w))
  \/ (exists p, _ROBOTS_CACHE w !! base = None
                /\ robots_read (robots_url base) (robots_reads w) = Ok p
                /\ _get_robot_parser base w
                   = (Some p,
                      {| trace := trace w ++ [RobotsRead (robots_url base)];
                         _ROBOTS_CACHE := <[base := p]> (_ROBOTS_CACHE w) |})).
Proof.
  unfold Robots._get_robot_parser, robots_url.
  destruct (_ROBOTS_CACHE w !! base) as [p|]; [left; eauto |].
  destruct (robots_read _ _) as [p|e]; [right; right | right; left]; eauto.
Qed.

(** The world after [is_allowed] is the world after its lookup. *)
Lemma is_allowed_world (url agent : string) (w : World) :
  snd (is_allowed url agent w) = w
  \/ exists base, _get_base_domain url = Ok base
                  /\ snd (is_allowed url agent w) = snd (_get_robot_parser base w).
Proof.
  unfold Robots.is_allowed.
  destruct (_get_base_domain url) as [base|e]; [| now left].
  right. exists base. split; [reflexivity |].
  destruct (_get_robot_parser base w) as [[p|] w']; [| reflexivity].
  now destruct (can_fetch p agent url) as [[]|].
Qed.

Lemma get_robot_parser_effects (base : string) (w : World) :
  let w' := snd (_get_robot_parser base w) in
  gets w' = gets w
  /\ (robots_reads w <= robots_reads w' <= robots_reads w + 1)%nat
  /\ (forall b p, _ROBOTS_CACHE w !! b = Some p -> _ROBOTS_CACHE w' !! b = Some p).
Proof.
  intros w'. subst w'.
  destruct (get_robot_parser_world base w)
    as [(p & Hc & ->) | [(e & Hc & _ & ->) | (p & Hc & _ & ->)]]; cbn [snd].
  - repeat split; try lia. auto.
  - rewrite gets_log, robots_reads_log. simpl. repeat split; try lia. auto.
  - unfold gets, robots_reads. cbn [trace _ROBOTS_CACHE].
    rewrite !List.filter_app, !List.length_app. simpl.
    repeat split; try lia.
    intros b q Hb. rewrite lookup_insert_ne; [assumption |].
    intros ->. congruence.
Qed.

Lemma is_allowed_effects (url agent : string) (w : World) :
  let w' := snd (is_allowed url agent w) in
  gets w' = gets w
  /\ (robots_reads w <= robots_reads w' <= robots_reads w + 1)%nat
  /\ (forall b p, _ROBOTS_CACHE w !! b = Some p -> _ROBOTS_CACHE w' !! b = Some p).
Proof.
  intros w'. subst w'.
  destruct (is_allowed_world url agent w) as [-> | (base & _ & ->)].
  - repeat split; try lia. auto.
  - apply get_robot_parser_effects.
Qed.

(** X6: the compliance check makes no page request, reads robots.txt at
    most once, and never removes or replaces a cached policy. *)
Theorem is_allowed_only_reads_robots (url agent : string) (w : World) :
  let w' := snd (is_allowed url agent w) in
  gets w' = gets w
  /\ (robots_reads w <= robots_reads w' <= robots_reads w + 1)%nat
  /\ (forall b p, _ROBOTS_CACHE w !! b = Some p -> _ROBOTS_CACHE w' !! b = Some p).
Proof. apply is_allowed_effects. Qed.

Lemma is_allowed_cached (url agent base : string) (w : World) (p : RobotFileParser) :
  _get_base_domain url = Ok base ->
  _ROBOTS_CACHE w !! base = Some p ->
  is_allowed url agent w = (verdict p agent url, w).
Proof.
  intros Hb Hc. unfold Robots.is_allowed, Robots._get_robot_parser, verdict.
  rewrite Hb, Hc. now destruct (can_fetch p agent url) as [[]|].
Qed.

(** X7: a policy that was read is cached under its origin, and every
    later check of a URL of that origin, for any agent, is decided by the
    cached policy without reading robots.txt again or changing the world. *)
Theorem robots_policy_read_once
  (url agent base : string) (w : World) (p : RobotFileParser) :
  _get_base_domain url = Ok base ->
  _ROBOTS_CACHE w !! base = None ->
  robots_read (robots_url base) (robots_reads w) = Ok p ->
  let w1 := snd (is_allowed url agent w) in
  fst (is_allowed url agent w) = verdict p agent url
  /\ _ROBOTS_CACHE w1 !! base = Some p
  /\ robots_reads w1 = S (robots_reads w)
  /\ (forall url2 agent2,
        _get_base_domain url2 = Ok base ->
        is_allowed url2 agent2 w1 = (verdict p agent2 url2, w1)).
Proof.
  intros Hb Hc Hr w1.
  assert (Hw1 : is_allowed url agent w
                = (verdict p agent url,
                   {| trace := trace w ++ [RobotsRead (robots_url base)];
                      _ROBOTS_CACHE := <[base := p]> (_ROBOTS_CACHE w) |})).
  { unfold Robots.is_allowed, Robots._get_robot_parser, verdict.
    rewrite Hb, Hc. fold (robots_url base). rewrite Hr.
    now destruct (can_fetch p agent url) as [[]|]. }
  subst w1. rewrite Hw1. cbn [fst snd].
  assert (Hc1 : <[base := p]> (_ROBOTS_CACHE w) !! base = Some p)
    by apply lookup_insert_eq.
  split; [reflexivity |]. split; [exact Hc1 |]. split.
  - unfold robots_reads. cbn [trace]. rewrite List.filter_app, List.length_app.
    simpl. lia.
  - intros url2 agent2 Hb2. now apply is_allowed_cached with (base := base).
Qed.

(** X8: a read that fails is not cached: the URL is let through with an
    empty reason, the cache is unchanged, and the next check of the same
    origin reads robots.txt again. *)
Theorem robots_failed_read_not_cached
  (url agent base : string) (w : World) (e : exn) :
  _get_base_domain url = Ok base ->
  _ROBOTS_CACHE w !! base = None ->
  robots_read (robots_url base) (robots_reads w) = Raise e ->
  is_allowed url agent w = ((true, ""), log (RobotsRead (robots_url base)) w)
  /\ (forall url2 agent2,
        _get_base_domain url2 = Ok base ->
        robots_reads (snd (is_allowed url2 agent2
                             (log (RobotsRead (robots_url base)) w)))
        = S (S (robots_reads w))).
Proof.
  intros Hb Hc Hr. split.
  - unfold Robots.is_allowed, Robots._get_robot_parser.
    rewrite Hb, Hc. fold (robots_url base). now rewrite Hr.
  - intros url2 agent2 Hb2.
    set (w1 := log (RobotsRead (robots_url base)) w).
    assert (Hc1 : _ROBOTS_CACHE w1 !! base = None) by exact Hc.
    assert (Hr1 : robots_reads w1 = S (robots_reads w)).
    { unfold w1. rewrite robots_reads_log. simpl. lia. }
    unfold Robots.is_allowed, Robots._get_robot_parser.
    rewrite Hb2, Hc1. fold (robots_url base).
    destruct (robots_read (robots_url base) (robots_reads w1)) as [p|e']; cbn [snd];
      [destruct (can_fetch p agent2 url2) as [[]|] |]; cbn [snd];
      unfold robots_reads in *; unfold w1, log in *; cbn [trace] in *;
      rewrite ?List.filter_app, ?List.length_app in *; simpl in *; lia.
Qed.

End RobotsCache.

(** ** The run: statuses, budgets, composition *)

Section PipelineMore.

Variable urlparse : string -> Result (string * string).
Variable robots_read : string -> nat -> Result RobotFileParser.
Variable requests_get : string -> nat -> Result Response.
Variable json_loads : string -> Result JSON.
Variable urljoin : string -> string -> Result string.
Variable BeautifulSoup : string -> Result Parser.Soup.

Abbreviation is_allowed := (Robots.is_allowed urlparse robots_read).
Abbreviation process_url :=
  (Main.process_url urlparse robots_read requests_get json_loads urljoin BeautifulSoup).
Abbreviation scrape_one :=
  (Main.scrape_one urlparse robots_read requests_get json_loads urljoin BeautifulSoup).
Abbreviation start_scraping :=
  (Main.start_scraping urlparse robots_read requests_get json_loads urljoin BeautifulSoup).
Abbreviation extract_structured_data :=
  (Parser.extract_structured_data json_loads urljoin BeautifulSoup).

Lemma is_allowed_trace (u a : string) (w : World) :
  exists evs,
    trace (snd (is_allowed u a w)) = (trace w ++ evs)%list
    /\ Forall (fun ev => is_robots_read ev = true) evs.
Proof.
  destruct (is_allowed_world urlparse robots_read u a w) as [-> | (base & _ & ->)].
  - exists []. split; [now rewrite app_nil_r | constructor].
  - destruct (get_robot_parser_world robots_read base w)
      as [(p & _ & ->) | [(e & _ & _ & ->) | (p & _ & _ & ->)]]; cbn [snd].
    + exists []. split; [now rewrite app_nil_r | constructor].
    + exists [RobotsRead (robots_url base)]. split; [reflexivity | now repeat constructor].
    + exists [RobotsRead (robots_url base)]. split; [reflexivity | now repeat constructor].
Qed.

(** X9: a URL the compliance gate refuses is recorded as skipped; the
    only effect is the reading of robots.txt: no page request, no pause. *)
Theorem denied_url_is_skipped (u reason : string) (w w1 : World) :
  is_allowed u default_agent w = ((false, reason), w1) ->
  scrape_one u w = (Main.make_empty u "skipped", w1)
  /\ gets w1 = gets w
  /\ exists evs, trace w1 = (trace w ++ evs)%list
                 /\ Forall (fun ev => is_robots_read ev = true) evs.
Proof.
  intros Hall. split; [| split].
  - unfold Main.scrape_one, Main.process_url. fold default_agent. now rewrite Hall.
  - pose proof (is_allowed_effects urlparse robots_read u default_agent w) as (Hg & _).
    now rewrite Hall in Hg.
  - pose proof (is_allowed_trace u default_agent w) as Ht. now rewrite Hall in Ht.
Qed.

(** The status of the record of one URL, read off the branches. *)
Lemma scrape_one_status (u : string) (w : World) :
  known_status (status (fst (scrape_one u w))).
Proof.
  unfold Main.scrape_one, Main.process_url, known_status.
  destruct (Robots.is_allowed _ _ _ _ _) as [[[] ?] w1]; [| simpl; tauto].
  destruct (Main.fetch_url_data _ _ _ _ _) as [[[f|]|e] w3]; simpl; [| tauto ..].
  destruct (Main._was_blocked f); [simpl; tauto |].
  destruct (_ >=? _); [simpl; tauto |].
  destruct (text _); simpl; [| tauto].
  unfold Parser.extract_structured_data.
  destruct (BeautifulSoup _); simpl; tauto.
Qed.

(** X10: every record of a run has one of the four statuses ok, skipped,
    blocked, failed. *)
Theorem run_statuses_are_known (urls : list string) (w : World) (r : PageRecord) :
  In r (fst (start_scraping urls w)) -> known_status (status r).
Proof.
  intros Hin.
  destruct (start_scraping_records urlparse robots_read requests_get json_loads
              urljoin BeautifulSoup urls w r Hin) as (u & w' & ->).
  apply scrape_one_status.
Qed.

Lemma scrape_one_effects (u : string) (w : World) :
  let w' := snd (scrape_one u w) in
  (gets w <= gets w' <= gets w + 4)%nat
  /\ (robots_reads w <= robots_reads w' <= robots_reads w + 1)%nat
  /\ (forall b p, _ROBOTS_CACHE w !! b = Some p -> _ROBOTS_CACHE w' !! b = Some p).
Proof.
  intros w'. subst w'.
  pose proof (is_allowed_effects urlparse robots_read u default_agent w) as (Hg & Hr & Hc).
  assert (Hw : snd (scrape_one u w) = snd (is_allowed u default_agent w)
               \/ snd (scrape_one u w)
                  = snd (Main.fetch_url_data requests_get u 3 2
                           (log Pause (snd (is_allowed u default_agent w))))).
  { unfold Main.scrape_one, Main.process_url. fold default_agent.
    destruct (is_allowed u default_agent w) as [[[] ?] w1]; cbn [snd]; [right | now left].
    destruct (Main.fetch_url_data _ _ _ _ _) as [[[f|]|e] w3]; cbn [snd];
      try reflexivity.
    destruct (Main._was_blocked f); [reflexivity |].
    destruct (_ >=? _); [reflexivity |].
    now destruct (text _). }
  destruct Hw as [-> | ->]; [repeat split; try lia; exact Hc |].
  pose proof (fetch_loop_effects requests_get u 3 2 (Z.to_nat (3 + 1)) 0
                (log Pause (snd (is_allowed u default_agent w)))) as (Hb & _ & Hr' & Hc').
  fold (Main.fetch_url_data requests_get u 3 2
          (log Pause (snd (is_allowed u default_agent w)))) in *.
  rewrite gets_log in Hb. rewrite robots_reads_log in Hr'. simpl in Hb, Hr'.
  repeat split; try lia.
  intros b p Hbp. rewrite Hc'. cbn [log _ROBOTS_CACHE]. now apply Hc.
Qed.

Lemma start_scraping_effects (urls : list string) :
  forall w,
    let w' := snd (start_scraping urls w) in
    (gets w <= gets w' <= gets w + 4 * length urls)%nat
    /\ (robots_reads w <= robots_reads w' <= robots_reads w + length urls)%nat
    /\ (forall b p, _ROBOTS_CACHE w !! b = Some p -> _ROBOTS_CACHE w' !! b = Some p).
Proof.
  induction urls as [|u rest IH]; intros w.
  - simpl. repeat split; try lia. auto.
  - cbn zeta. rewrite start_scraping_cons. cbn [snd length].
    pose proof (scrape_one_effects u w) as (Hg & Hr & Hc).
    specialize (IH (snd (scrape_one u w))). cbn zeta in IH.
    destruct IH as (Hg' & Hr' & Hc').
    repeat split; try lia. auto.
Qed.

(** X11: a run makes at most four page requests and one robots.txt read
    per input URL. *)
Theorem run_request_budget (urls : list string) (w : World) :
  (gets (snd (start_scraping urls w)) <= gets w + 4 * length urls)%nat
  /\ (robots_reads (snd (start_scraping urls w))
      <= robots_reads w + length urls)%nat.
Proof.
  pose proof (start_scraping_effects urls w) as (Hg & Hr & _). split; lia.
Qed.

(** X12: a run never drops or replaces a policy that is in the robots
    cache: what was cached before the run is cached after it. *)
Theorem run_keeps_cached_policies
  (urls : list string) (w : World) (base : string) (p : RobotFileParser) :
  _ROBOTS_CACHE w !! base = Some p ->
  _ROBOTS_CACHE (snd (start_scraping urls w)) !! base = Some p.
Proof.
  pose proof (start_scraping_effects urls w) as (_ & _ & Hc). apply Hc.
Qed.

(** X13: running on a list is running on its first part and then on the
    rest in the world the first part has left: records are appended, state
    is threaded. *)
Theorem run_of_concatenation (pre post : list string) (w : World) :
  fst (start_scraping (pre ++ post) w)
  = (fst (start_scraping pre w)
     ++ fst (start_scraping post (snd (start_scraping pre w))))%list
  /\ snd (start_scraping (pre ++ post) w)
     = snd (start_scraping post (snd (start_scraping pre w))).
Proof.
  rewrite (start_scraping_app urlparse robots_read requests_get json_loads
             urljoin BeautifulSoup pre post w).
  split; reflexivity.
Qed.

(** X14: an allowed URL whose page comes back, after [k <= 3] transient
    failures, as an unflagged response below 400 with a readable body is
    recorded as what the extractor makes of that body. *)
Theorem fetched_page_is_extracted
  (u reason html : string) (w w1 : World) (k : nat) (r : Response) :
  is_allowed u default_agent w = ((true, reason), w1) ->
  (k <= 3)%nat ->
  (forall j, (j < k)%nat -> transient (requests_get u (gets w1 + j)%nat)) ->
  requests_get u (gets w1 + k)%nat = Ok r ->
  Parser.check_blocking r = false ->
  status_code r < 400 ->
  text r = Ok html ->
  fst (scrape_one u w) = extract_structured_data u html.
Proof.
  intros Hall Hk Htr Hget Hb Hst Htext.
  unfold Main.scrape_one, Main.process_url. fold default_agent. rewrite Hall.
  rewrite (fetch_recovers requests_get u 3 2 (log Pause w1) k r);
    try assumption; try exact default_backoff_fits; try lia.
  - cbn [Main._was_blocked Main.response].
    replace (status_code r >=? 400) with false by lia. now rewrite Htext.
  - intros j Hj. rewrite gets_log. simpl. rewrite Nat.add_0_r. now apply Htr.
  - rewrite gets_log. simpl. now rewrite Nat.add_0_r.
Qed.

(** X15: an allowed URL whose server never answers costs four requests
    with sleeps of 2, 4 and 8 seconds between them, after the pause, and is
    recorded as failed. *)
Theorem unreachable_url_is_failed (u reason : string) (w w1 : World) :
  is_allowed u default_agent w = ((true, reason), w1) ->
  (forall j, (j <= 3)%nat -> exists e, requests_get u (gets w1 + j)%nat = Raise e) ->
  scrape_one u w
  = (Main.make_empty u "failed",
     {| trace := trace w1 ++ [ Pause; Get u; Sleep 2; Get u; Sleep 4; Get u;
                                Sleep 8; Get u ];
        _ROBOTS_CACHE := _ROBOTS_CACHE w1 |}).
Proof.
  intros Hall Hdown.
  unfold Main.scrape_one, Main.process_url. fold default_agent. rewrite Hall.
  rewrite (fetch_all_raise requests_get u 3 2 (log Pause w1));
    [| lia | lia | exact default_backoff_fits |].
  - cbn [log trace _ROBOTS_CACHE]. rewrite <- app_assoc. reflexivity.
  - intros j Hj. rewrite gets_log. simpl. rewrite Nat.add_0_r.
    apply Hdown. simpl in Hj. lia.
Qed.

End PipelineMore.

Lemma robots_policy_read_once_witness :
  let w1 := snd (Robots.is_allowed Sample.urlparse Sample.closed_robots
                   Sample.page_url default_agent Sample.empty_world) in
  _ROBOTS_CACHE w1 !! Sample.origin = Some Sample.deny_all
  /\ Robots.is_allowed Sample.urlparse Sample.closed_robots
       "https://example.com/other" "curl" w1
     = (verdict Sample.deny_all "curl" "https://example.com/other", w1).
Proof.
  intros w1.
  destruct (robots_policy_read_once Sample.urlparse Sample.closed_robots
              Sample.page_url default_agent Sample.origin Sample.empty_world
              Sample.deny_all eq_refl eq_refl eq_refl)
    as (_ & Hc & _ & Hnext).
  split; [exact Hc |].
  exact (Hnext "https://example.com/other" "curl" eq_refl).
Defined.

Lemma robots_failed_read_not_cached_witness :
  Robots.is_allowed Sample.urlparse Sample.no_robots Sample.page_url default_agent
    Sample.empty_world
  = ((true, ""), Sample.after_read)
  /\ robots_reads (snd (Robots.is_allowed Sample.urlparse Sample.no_robots
                          "https://example.com/other" "curl" Sample.after_read))
     = 2%nat.
Proof.
  destruct (robots_failed_read_not_cached Sample.urlparse Sample.no_robots
              Sample.page_url default_agent Sample.origin Sample.empty_world
              RequestException eq_refl eq_refl eq_refl) as (Hfirst & Hnext).
  split; [exact Hfirst |].
  exact (Hnext "https://example.com/other" "curl" eq_refl).
Defined.

Lemma denied_url_is_skipped_witness :
  Main.scrape_one Sample.urlparse Sample.closed_robots Sample.down Sample.no_json
    Sample.no_urljoin Sample.empty_soup Sample.page_url Sample.empty_world
  = (Main.make_empty Sample.page_url "skipped",
     {| trace := [RobotsRead "https://example.com/robots.txt"];
        _ROBOTS_CACHE := {[ Sample.origin := Sample.deny_all ]} |}).
Proof.
  refine (proj1 (denied_url_is_skipped Sample.urlparse Sample.closed_robots
                   Sample.down Sample.no_json Sample.no_urljoin Sample.empty_soup
                   Sample.page_url (Robots.disallowed_reason default_agent)
                   Sample.empty_world _ _)).
  reflexivity.
Defined.

Lemma run_statuses_are_known_witness :
  known_status (status (Main.make_empty Sample.page_url "skipped")).
Proof.
  apply (run_statuses_are_known Sample.urlparse Sample.closed_robots Sample.down
           Sample.no_json Sample.no_urljoin Sample.empty_soup
           [Sample.page_url] Sample.empty_world).
  left. reflexivity.
Defined.

Lemma run_keeps_cached_policies_witness :
  _ROBOTS_CACHE Sample.cached_world !! Sample.origin = Some Sample.deny_all
  /\ _ROBOTS_CACHE
       (snd (Main.start_scraping Sample.urlparse Sample.no_robots Sample.flaky
               Sample.no_json Sample.no_urljoin Sample.empty_soup
               ["https://example.com/a"; "https://example.com/b"]
               Sample.cached_world))
     !! Sample.origin = Some Sample.deny_all.
Proof.
  split; [reflexivity |].
  apply (run_keeps_cached_policies Sample.urlparse Sample.no_robots Sample.flaky
           Sample.no_json Sample.no_urljoin Sample.empty_soup).
  reflexivity.
Defined.

Lemma flaky_transient_after_read (j : nat) :
  (j < 2)%nat -> transient (Sample.flaky Sample.page_url (gets Sample.after_read + j)).
Proof. intros Hj. destruct j as [|[|j]]; [exact I | exact I | lia]. Defined.

Lemma fetched_page_is_extracted_witness :
  fst (Main.scrape_one Sample.urlparse Sample.no_robots Sample.flaky Sample.no_json
         Sample.no_urljoin Sample.empty_soup Sample.page_url Sample.empty_world)
  = Parser.extract_structured_data Sample.no_json Sample.no_urljoin
      Sample.empty_soup Sample.page_url "<html></html>".
Proof.
  refine (fetched_page_is_extracted Sample.urlparse Sample.no_robots Sample.flaky
            Sample.no_json Sample.no_urljoin Sample.empty_soup
            Sample.page_url "" "<html></html>" Sample.empty_world Sample.after_read
            2 Sample.plain_page eq_refl _ flaky_transient_after_read
            eq_refl eq_refl _ eq_refl); simpl; lia.
Defined.

Lemma unreachable_url_is_failed_witness :
  Main.scrape_one Sample.urlparse Sample.no_robots Sample.down Sample.no_json
    Sample.no_urljoin Sample.empty_soup Sample.page_url Sample.empty_world
  = (Main.make_empty Sample.page_url "failed",
     {| trace := [ RobotsRead "https://example.com/robots.txt"; Pause;
                   Get Sample.page_url; Sleep 2; Get Sample.page_url; Sleep 4;
                   Get Sample.page_url; Sleep 8; Get Sample.page_url ];
        _ROBOTS_CACHE := ∅ |}).
Proof.
  refine (unreachable_url_is_failed Sample.urlparse Sample.no_robots Sample.down
            Sample.no_json Sample.no_urljoin Sample.empty_soup
            Sample.page_url "" Sample.empty_world Sample.after_read eq_refl _).
  intros j _. exists RequestException. reflexivity.
Defined.

(** ** The extractor: JSON-LD, fields, CTAs *)

Lemma or_None_nonempty (t v : string) : Parser.or_None t = Some v -> v <> "".
Proof.
  unfold Parser.or_None. destruct t; simpl; [discriminate |].
  intros [= <-]. discriminate.
Qed.

Lemma items_of_dicts (parsed : JSON) : Forall (fun o => Parser.is_dict o = true)
                                         (Parser.items_of parsed).
Proof.
  assert (Hd : forall objs, Forall (fun o => Parser.is_dict o = true)
                              (Parser.dicts_of objs)).
  { intros objs. unfold Parser.dicts_of. apply List.Forall_forall.
    intros o Ho. now apply List.filter_In in Ho. }
  destruct parsed as [| | | | |objs|kvs]; cbn [Parser.items_of]; try constructor.
  - apply Hd.
  - destruct (Parser.lookup_key "@graph" kvs) as [[| | | | |objs|]|];
      try (constructor; [reflexivity | constructor]).
    apply List.Forall_app. split; [apply Hd | constructor; [reflexivity | constructor]].
Qed.

Lemma read_json_data_none (objs : list JSON) (path : list string) :
  Parser.read_json_data objs path = None
  <-> Forall (fun o => Parser.read_one o path = None) objs.
Proof.
  induction objs as [|o objs IH]; cbn [Parser.read_json_data].
  - split; [constructor | reflexivity].
  - destruct (Parser.read_one o path) eqn:Ho.
    + split; [discriminate |]. intros H. inversion H. congruence.
    + rewrite IH. split; [now constructor | intros H; now inversion H].
Qed.

Lemma class_scan_nonempty (type : string) (keys : list string) (es : list Node)
  (v : string) :
  String.eqb type "rating" = false ->
  Parser.class_scan type keys es = Some v -> v <> "".
Proof.
  intros Hty. induction es as [|e es IH]; cbn [Parser.class_scan]; [discriminate |].
  destruct (existsb _ keys); [| exact IH].
  rewrite Hty, andb_false_r.
  destruct (Str.truthy (Parser.get_text_clean (Some e))) eqn:Ht; [| exact IH].
  intros [= <-]. now apply truthy_nonempty.
Qed.

Lemma price_scan_nonempty (es : list Node) (v : string) :
  Parser.price_scan es = Some v -> v <> "".
Proof.
  induction es as [|e es IH]; cbn [Parser.price_scan]; [discriminate |].
  destruct (existsb _ _); [| exact IH].
  destruct (Str.truthy (Parser.get_text_clean (Some e))) eqn:Ht; [| exact IH].
  intros [= <-]. now apply truthy_nonempty.
Qed.

Lemma price_kinds_nonempty (soup : Parser.Soup) (kinds : list string) (v : string) :
  Parser.price_kinds soup kinds = Some v -> v <> "".
Proof.
  induction kinds as [|t kinds IH]; cbn [Parser.price_kinds]; [discriminate |].
  destruct (Parser.price_scan _) eqn:Hs; [| exact IH].
  intros [= <-]. now apply price_scan_nonempty in Hs.
Qed.

Section ExtractorMore.

Variable json_loads : string -> Result JSON.
Variable urljoin : string -> string -> Result string.
Variable BeautifulSoup : string -> Result Parser.Soup.

Abbreviation extract_structured_data :=
  (Parser.extract_structured_data json_loads urljoin BeautifulSoup).
Abbreviation get_json_ld_loop := (Parser.get_json_ld_loop json_loads).

Lemma get_json_ld_loop_cons (s : Node) (rest : list Node) :
  get_json_ld_loop (s :: rest)
  = if negb (Str.truthy (script_raw s)) then get_json_ld_loop rest
    else match json_loads (script_raw s) with
         | Raise JSONDecodeError => get_json_ld_loop rest
         | Raise _ => []
         | Ok parsed => (Parser.items_of parsed ++ get_json_ld_loop rest)%list
         end.
Proof. reflexivity. Qed.

(** X16: every item [get_json_ld] collects is a JSON object (a dict):
    scalars, arrays and nulls met at the top of a block or in a list are
    left out. *)
Theorem get_json_ld_only_dicts (soup : Parser.Soup) :
  Forall (fun o => Parser.is_dict o = true) (Parser.get_json_ld json_loads soup).
Proof.
  unfold Parser.get_json_ld.
  induction (Parser.find_all soup _) as [|s rest IH]; [constructor |].
  rewrite get_json_ld_loop_cons.
  destruct (negb _); [exact IH |].
  destruct (json_loads _) as [parsed|[]]; try constructor; try exact IH.
  apply List.Forall_app. split; [apply items_of_dicts | exact IH].
Qed.

(** X17: a script block that is empty or does not decode is skipped: the
    items collected are those of the page without that block. *)
Theorem malformed_block_is_skipped (before after : list Node) (s : Node) :
  script_raw s = "" \/ json_loads (script_raw s) = Raise JSONDecodeError ->
  get_json_ld_loop (before ++ s :: after) = get_json_ld_loop (before ++ after).
Proof.
  intros Hbad. induction before as [|b before IH].
  - cbn [app]. rewrite get_json_ld_loop_cons.
    destruct Hbad as [-> | Hbad]; [reflexivity |].
    rewrite Hbad. now destruct (negb _).
  - rewrite <- !app_comm_cons, !get_json_ld_loop_cons, IH. reflexivity.
Qed.

(** X18: [read_json_data] answers [None] exactly when no object holds a
    string, number or boolean at the path, and an answer [v] is what one of
    the objects holds there. *)
Theorem read_json_data_answers (objs : list JSON) (path : list string) :
  (Parser.read_json_data objs path = None
   <-> Forall (fun o => Parser.read_one o path = None) objs)
  /\ (forall v, Parser.read_json_data objs path = Some v ->
                exists o curr, In o objs /\ Parser.walk o path = Some curr
                               /\ Parser.scalar_str curr = Some v).
Proof.
  split; [apply read_json_data_none |].
  induction objs as [|o objs IH]; cbn [Parser.read_json_data]; [discriminate |].
  intros v. destruct (Parser.read_one o path) as [s|] eqn:Ho.
  - intros [= <-]. unfold Parser.read_one in Ho.
    destruct (Parser.walk o path) as [curr|] eqn:Hw; [| discriminate].
    exists o, curr. repeat split; [now left | assumption | assumption].
  - intros Hv. destruct (IH v Hv) as (o' & curr & Hin & Hw & Hs).
    exists o', curr. repeat split; [now right | assumption | assumption].
Qed.

(** X19: the title, the heading and the meta description of an extracted
    record are never the empty string: an empty text is recorded as
    absent. *)
Theorem text_fields_never_empty (u html : string) :
  title (extract_structured_data u html) <> Some ""
  /\ h1 (extract_structured_data u html) <> Some ""
  /\ meta_description (extract_structured_data u html) <> Some "".
Proof.
  unfold Parser.extract_structured_data.
  destruct (BeautifulSoup html) as [soup|e]; cbn [title h1 meta_description];
    [| repeat split; discriminate].
  split; [| split].
  - unfold Parser.find_title. intros H. now apply or_None_nonempty in H.
  - unfold Parser.find_h1. destruct (Parser.find_all soup _); [discriminate |].
    intros H. now apply or_None_nonempty in H.
  - unfold Parser.find_meta. destruct (Parser.find soup _) as [m|]; [| discriminate].
    destruct (Parser.get m "content") as [c|]; [| discriminate].
    destruct (Str.truthy c); [| discriminate].
    intros H. now apply or_None_nonempty in H.
Qed.

(** X20: a review count or a price found in the DOM is never empty (only
    the rating can come from class tokens and so be empty). *)
Theorem dom_review_count_and_price_nonempty (soup : Parser.Soup) (v : string) :
  (Parser.get_metric soup "review_count" = Some v -> v <> "")
  /\ (Parser.get_price soup = Some v -> v <> "").
Proof.
  split.
  - unfold Parser.get_metric.
    assert (Hc : Parser.class_scan "review_count" (Parser.metric_keys "review_count")
                   (Parser.find_all soup Parser.has_class) = Some v -> v <> "")
      by (apply class_scan_nonempty; reflexivity).
    assert (Ha : match Parser.find soup (Parser.aria_matches "review_count") with
                 | Some m =>
                     if Str.truthy (Parser.get_text_clean (Some m))
                     then Some (Parser.get_text_clean (Some m))
                     else Parser.class_scan "review_count"
                            (Parser.metric_keys "review_count")
                            (Parser.find_all soup Parser.has_class)
                 | None => Parser.class_scan "review_count"
                             (Parser.metric_keys "review_count")
                             (Parser.find_all soup Parser.has_class)
                 end = Some v -> v <> "").
    { destruct (Parser.find soup (Parser.aria_matches _)) as [m|]; [| exact Hc].
      destruct (Str.truthy _) eqn:Ht; [| exact Hc].
      intros [= <-]. now apply truthy_nonempty. }
    destruct (Parser.find soup (Parser.attr_is _ _)) as [m|]; [| exact Ha].
    destruct (Str.truthy (Parser.text_or_content m)) eqn:Ht; [| exact Ha].
    intros [= <-]. now apply truthy_nonempty.
  - unfold Parser.get_price.
    destruct (Parser.find soup _) as [m|]; [| apply price_kinds_nonempty].
    destruct (Str.truthy (Parser.text_or_content m)) eqn:Ht;
      [| apply price_kinds_nonempty].
    intros [= <-]. now apply truthy_nonempty.
Qed.

(** X21: when every JSON-LD block of the page is empty or makes
    [json.loads] raise, the page is still extracted with status ok, and
    rating, review count and price are what the DOM gives. *)
Theorem undecodable_json_ld_does_not_fail (u html : string) (soup : Parser.Soup) :
  BeautifulSoup html = Ok soup ->
  (forall s, In s (Parser.find_all soup is_ld_json_script) ->
             script_raw s = "" \/ exists e, json_loads (script_raw s) = Raise e) ->
  status (extract_structured_data u html) = "ok"
  /\ rating (extract_structured_data u html) = Parser.get_metric soup "rating"
  /\ review_count (extract_structured_data u html)
     = Parser.get_metric soup "review_count"
  /\ pricing (extract_structured_data u html) = Parser.get_price soup.
Proof.
  intros Hsoup Hbad. unfold Parser.extract_structured_data. rewrite Hsoup.
  assert (Hld : Parser.get_json_ld json_loads soup = []).
  { unfold Parser.get_json_ld. fold is_ld_json_script.
    induction (Parser.find_all soup is_ld_json_script) as [|s rest IH];
      [reflexivity |].
    rewrite get_json_ld_loop_cons.
    assert (IH' : get_json_ld_loop rest = [])
      by (apply IH; intros s' Hs'; apply Hbad; now right).
    destruct (Hbad s (or_introl eq_refl)) as [-> | [e He]]; [exact IH' |].
    destruct (negb _); [exact IH' |]. rewrite He. now destruct e. }
  rewrite Hld. cbn [status rating review_count pricing Parser.read_json_data].
  unfold Parser.if_None.
  repeat split;
    [ now destruct (Parser.get_metric soup "rating")
    | now destruct (Parser.get_metric soup "review_count")
    | now destruct (Parser.get_price soup) ].
Qed.

(** The CTA keyword test on an entry. *)
Lemma cta_of_keyword (page : string) (e : Node) (c : CTA) :
  Parser.cta_of urljoin page e = Ok (Some c) ->
  existsb (fun k => Str.contains k (Str.lower (cta_text c))
                    || Str.contains k (Str.lower (cta_href c)))
    Parser._CTA_KEYWORDS = true.
Proof.
  unfold Parser.cta_of.
  destruct (_ && _ && _); [discriminate |].
  destruct (negb _); [discriminate |].
  destruct (if String.eqb (Parser.tag_name e) "a" then _ else _) as [h|err];
    cbv beta iota; [| discriminate].
  destruct (existsb _ _) eqn:Hk; [| discriminate].
  intros [= <-]. exact Hk.
Qed.

(** X22: every CTA returned holds one of the CTA keywords in its
    lower-cased text or in its lower-cased href. *)
Theorem every_cta_has_keyword (soup : Parser.Soup) (page : string) (c : CTA) :
  In c (Parser.get_btns urljoin soup page) ->
  exists k, In k Parser._CTA_KEYWORDS
            /\ (Str.contains k (Str.lower (cta_text c)) = true
                \/ Str.contains k (Str.lower (cta_href c)) = true).
Proof.
  intros Hin.
  destruct (get_btns_loop_from urljoin page _ c Hin) as (e & _ & Hc).
  apply cta_of_keyword in Hc. apply existsb_exists in Hc.
  destruct Hc as (k & Hk & Hor). exists k. split; [exact Hk |].
  now apply orb_true_iff in Hor.
Qed.

(** X23: when [urljoin] raises on a link, the scan stops there: the CTAs
    found before that link are returned, the elements after it are not
    looked at. *)
Theorem urljoin_error_truncates_ctas
  (soup : Parser.Soup) (page : string) (before after : list Node) (e : Node)
  (err : exn) :
  Parser.find_all soup Parser.is_btn_tag = (before ++ e :: after)%list ->
  Parser.cta_of urljoin page e = Raise err ->
  Parser.get_btns urljoin soup page = Parser.get_btns_loop urljoin page before.
Proof.
  intros Hall Herr. unfold Parser.get_btns. rewrite Hall. clear Hall.
  induction before as [|b before IH]; cbn [app Parser.get_btns_loop].
  - now rewrite Herr.
  - destruct (Parser.cta_of urljoin page b) as [[c|]|]; now rewrite ?IH.
Qed.

(** X24: when resolving the hrefs of the links of the page does not
    raise, the CTAs are those the loop body emits for the link, button and
    input tags, in document order, none dropped. *)
Theorem ctas_in_document_order (soup : Parser.Soup) (page : string) :
  (forall e, In e (Parser.find_all soup Parser.is_btn_tag) ->
             Parser.tag_name e = "a" -> link_href e <> "" ->
             exists r, urljoin page (link_href e) = Ok r) ->
  Parser.get_btns urljoin soup page
  = flat_map (fun e => match Parser.cta_of urljoin page e with
                       | Ok (Some c) => [c]
                       | _ => []
                       end)
      (Parser.find_all soup Parser.is_btn_tag).
Proof.
  unfold Parser.get_btns.
  induction (Parser.find_all soup Parser.is_btn_tag) as [|e es IH]; intros Hhrefs;
    [reflexivity |].
  cbn [Parser.get_btns_loop flat_map].
  destruct (cta_of_no_raise urljoin page e (Hhrefs e (or_introl eq_refl)))
    as [[c|] ->]; cbn [app]; rewrite IH; try reflexivity;
    intros e' He'; apply Hhrefs; now right.
Qed.

End ExtractorMore.

Lemma malformed_block_is_skipped_witness :
  Sample.json_loads (script_raw Sample.broken_block) = Raise JSONDecodeError
  /\ Parser.get_json_ld_loop Sample.json_loads
       [Sample.broken_block; Sample.ld_json (Sample.rated_text "4.5")]
     = Parser.get_json_ld_loop Sample.json_loads
         [Sample.ld_json (Sample.rated_text "4.5")].
Proof.
  split; [reflexivity |].
  apply (malformed_block_is_skipped Sample.json_loads [] 
           [Sample.ld_json (Sample.rated_text "4.5")] Sample.broken_block).
  right. reflexivity.
Defined.

Lemma read_json_data_answers_witness :
  exists o curr,
    In o [Sample.rated "4.5"]
    /\ Parser.walk o ["aggregateRating"; "ratingValue"] = Some curr
    /\ Parser.scalar_str curr = Some "4.5".
Proof.
  apply (proj2 (read_json_data_answers [Sample.rated "4.5"]
                  ["aggregateRating"; "ratingValue"]) "4.5").
  reflexivity.
Defined.

Lemma dom_review_count_and_price_nonempty_witness :
  Parser.get_metric Sample.reviewed_page "review_count" = Some "12 reviews"
  /\ "12 reviews" <> "".
Proof.
  assert (H : Parser.get_metric Sample.reviewed_page "review_count"
              = Some "12 reviews") by reflexivity.
  split; [exact H |].
  exact (proj1 (dom_review_count_and_price_nonempty Sample.reviewed_page
                  "12 reviews") H).
Defined.

Lemma undecodable_json_ld_does_not_fail_witness :
  Parser.find_all Sample.broken_ld_page is_ld_json_script = [Sample.broken_block]
  /\ Sample.json_loads (script_raw Sample.broken_block) = Raise JSONDecodeError
  /\ status (Parser.extract_structured_data Sample.json_loads Sample.no_urljoin
               (Sample.soup_of Sample.broken_ld_page) Sample.page_url "<html>")
     = "ok"
  /\ rating (Parser.extract_structured_data Sample.json_loads Sample.no_urljoin
               (Sample.soup_of Sample.broken_ld_page) Sample.page_url "<html>")
     = Some "Three".
Proof.
  split; [reflexivity |]. split; [reflexivity |].
  destruct (undecodable_json_ld_does_not_fail Sample.json_loads Sample.no_urljoin
              (Sample.soup_of Sample.broken_ld_page) Sample.page_url "<html>"
              Sample.broken_ld_page eq_refl) as (Hst & Hr & _).
  - intros s [<- | []]. right. exists JSONDecodeError. reflexivity.
  - split; [exact Hst |]. rewrite Hr. reflexivity.
Defined.

Lemma every_cta_has_keyword_witness :
  exists k, In k Parser._CTA_KEYWORDS
            /\ (Str.contains k (Str.lower "Buy now") = true
                \/ Str.contains k (Str.lower "") = true).
Proof.
  apply (every_cta_has_keyword Urllib.urljoin Sample.signup_page Sample.page_url
           (mkCTA "Buy now" "")).
  right. left. reflexivity.
Defined.

Lemma urljoin_error_truncates_ctas_witness :
  Parser.cta_of Sample.no_urljoin Sample.page_url Sample.signup_link
  = Raise ValueError
  /\ Parser.get_btns Sample.no_urljoin Sample.link_between_buttons Sample.page_url
     = [mkCTA "Buy now" ""].
Proof.
  assert (H : Parser.cta_of Sample.no_urljoin Sample.page_url Sample.signup_link
              = Raise ValueError) by reflexivity.
  split; [exact H |].
  exact (urljoin_error_truncates_ctas Sample.no_urljoin Sample.link_between_buttons
           Sample.page_url [Sample.buy_button] [Sample.buy_button]
           Sample.signup_link ValueError eq_refl H).
Defined.

Lemma ctas_in_document_order_witness :
  Parser.get_btns Urllib.urljoin Sample.link_between_buttons Sample.page_url
  = flat_map (fun e => match Parser.cta_of Urllib.urljoin Sample.page_url e with
                       | Ok (Some c) => [c]
                       | _ => []
                       end)
      (Parser.find_all Sample.link_between_buttons Parser.is_btn_tag).
Proof.
  apply (ctas_in_document_order Urllib.urljoin Sample.link_between_buttons
           Sample.page_url).
  intros e [<- | [<- | [<- | []]]] Ha Hh; try discriminate Ha.
  exists "https://example.com/join". reflexivity.
Defined.

(** ** Input URLs *)

Lemma lstrip_head (s : string) (c : ascii) (t : string) :
  Str.lstrip s = String c t -> Str.isspace c = false.
Proof.
  induction s as [|a s IH]; cbn [Str.lstrip]; [discriminate |].
  destruct (Str.isspace a) eqn:Ha; [exact IH |].
  intros [= <- _]. exact Ha.
Qed.

Lemma rstrip_idem (s : string) : Str.rstrip (Str.rstrip s) = Str.rstrip s.
Proof.
  induction s as [|c s IH]; [reflexivity |].
  cbn [Str.rstrip]. destruct (Str.rstrip s) as [|c' s'] eqn:Hs.
  - destruct (Str.isspace c) eqn:Hc; [reflexivity |].
    cbn [Str.rstrip]. now rewrite Hc.
  - cbn [Str.rstrip] in *. now rewrite IH.
Qed.

(** [rstrip] keeps a first character that is not a space. *)
Lemma rstrip_keeps_head (c : ascii) (t : string) :
  Str.isspace c = false -> exists t', Str.rstrip (String c t) = String c t'.
Proof.
  intros Hc. cbn [Str.rstrip]. destruct (Str.rstrip t); [rewrite Hc |]; eauto.
Qed.

Lemma strip_idem (s : string) : Str.strip (Str.strip s) = Str.strip s.
Proof.
  unfold Str.strip. destruct (Str.lstrip s) as [|c t] eqn:Hl; [reflexivity |].
  pose proof (lstrip_head s c t Hl) as Hc.
  destruct (rstrip_keeps_head c t Hc) as [t' Ht'].
  rewrite Ht'. cbn [Str.lstrip]. rewrite Hc, <- Ht'. apply rstrip_idem.
Qed.

Lemma lstrip_all_space (s : string) :
  Urllib.all_chars Str.isspace s = true -> Str.lstrip s = "".
Proof.
  induction s as [|c s IH]; [reflexivity |].
  cbn [Urllib.all_chars Str.lstrip]. intros H. apply andb_true_iff in H.
  destruct H as [Hc Hs]. rewrite Hc. now apply IH.
Qed.

Lemma strip_all_space (s : string) :
  Urllib.all_chars Str.isspace s = true -> Str.strip s = "".
Proof. intros H. unfold Str.strip. now rewrite lstrip_all_space. Qed.

Lemma all_chars_lstrip (p : ascii -> bool) (s : string) :
  Urllib.all_chars p s = true -> Urllib.all_chars p (Str.lstrip s) = true.
Proof.
  induction s as [|c s IH]; [reflexivity |].
  cbn [Str.lstrip]. destruct (Str.isspace c); [| easy].
  cbn [Urllib.all_chars]. intros H. apply andb_true_iff in H. now apply IH.
Qed.

Lemma all_chars_rstrip (p : ascii -> bool) (s : string) :
  Urllib.all_chars p s = true -> Urllib.all_chars p (Str.rstrip s) = true.
Proof.
  induction s as [|c s IH]; [reflexivity |].
  cbn [Urllib.all_chars Str.rstrip]. intros H. apply andb_true_iff in H.
  destruct H as [Hc Hs]. specialize (IH Hs).
  destruct (Str.rstrip s) as [|c' s'].
  - destruct (Str.isspace c); [reflexivity |].
    cbn [Urllib.all_chars]. now rewrite Hc.
  - cbn [Urllib.all_chars] in *. now rewrite Hc.
Qed.

(** The pieces of a text made of commas and spaces are made of spaces. *)
Lemma split_comma_blank (s : string) :
  Urllib.all_chars (fun c => Str.isspace c || Ascii.eqb c ",") s = true ->
  Forall (fun piece => Urllib.all_chars Str.isspace piece = true) (Str.split "," s).
Proof.
  induction s as [|c s IH]; [intros _; now repeat constructor |].
  cbn [Urllib.all_chars Str.split]. intros H. apply andb_true_iff in H.
  destruct H as [Hc Hs]. specialize (IH Hs).
  destruct (Ascii.eqb c ",") eqn:Hcomma.
  - constructor; [reflexivity | exact IH].
  - rewrite orb_false_r in Hc.
    destruct (Str.split "," s) as [|piece pieces].
    + constructor; [| constructor]. cbn [Urllib.all_chars]. now rewrite Hc.
    + inversion IH as [|? ? Hp Hps]; subst.
      constructor; [| exact Hps]. cbn [Urllib.all_chars]. now rewrite Hc.
Qed.

Lemma stripped_nonblank_blank (xs : list string) :
  Forall (fun x => Str.strip x = "") xs -> Main.stripped_nonblank xs = [].
Proof.
  intros H. unfold Main.stripped_nonblank.
  induction H as [|x xs Hx _ IH]; [reflexivity |].
  cbn [List.filter]. now rewrite Hx.
Qed.

Lemma stripped_nonblank_elements (xs : list string) :
  Forall (fun u => u <> "" /\ Str.strip u = u) (Main.stripped_nonblank xs).
Proof.
  unfold Main.stripped_nonblank. apply List.Forall_forall. intros u Hu.
  apply List.in_map_iff in Hu. destruct Hu as (x & <- & Hx).
  apply List.filter_In in Hx. destruct Hx as [_ Hx].
  split; [now apply truthy_nonempty | apply strip_idem].
Qed.

(** X25: [get_urls] never returns an empty list, and none of the URLs it
    returns is empty or carries white space at either end. *)
Theorem get_urls_nonempty_stripped (argv : list string) (input : Result string) :
  Main.get_urls argv input <> []
  /\ Forall (fun u => u <> "" /\ Str.strip u = u) (Main.get_urls argv input).
Proof.
  assert (Hdef : Forall (fun u => u <> "" /\ Str.strip u = u) Main.DEFAULT_URLS).
  { constructor; [| constructor]. split; [discriminate | reflexivity]. }
  unfold Main.get_urls.
  pose proof (stripped_nonblank_elements argv) as Hcli.
  destruct (Main.stripped_nonblank argv) as [|a cli]; [| split; [discriminate | exact Hcli]].
  destruct input as [line|e]; [| split; [discriminate | exact Hdef]].
  destruct (Str.truthy (Str.strip line)); [| split; [discriminate | exact Hdef]].
  pose proof (stripped_nonblank_elements (Str.split "," (Str.strip line))) as Hin.
  destruct (Main.stripped_nonblank (Str.split "," (Str.strip line)));
    split; try discriminate; assumption.
Qed.

(** X26: one argument that is not blank is enough for the command line to
    decide: the result is the stripped non-blank arguments, in order,
    whatever the prompt would give. *)
Theorem get_urls_command_line_first
  (argv : list string) (a : string) (input : Result string) :
  In a argv -> Str.strip a <> "" ->
  Main.get_urls argv input
  = List.map Str.strip (List.filter (fun x => Str.truthy (Str.strip x)) argv).
Proof.
  intros Hin Ha. unfold Main.get_urls.
  fold (Main.stripped_nonblank argv).
  destruct (Main.stripped_nonblank argv) as [|u us] eqn:Hs; [| reflexivity].
  exfalso. unfold Main.stripped_nonblank in Hs.
  apply List.map_eq_nil in Hs.
  assert (Hf : In a (List.filter (fun x => Str.truthy (Str.strip x)) argv)).
  { apply List.filter_In. split; [exact Hin |]. now destruct (Str.strip a). }
  rewrite Hs in Hf. destruct Hf.
Qed.

(** X27: with no usable argument, a prompt that raises, or an answer made
    only of commas and white space, gives the default list. *)
Theorem get_urls_falls_back_to_defaults (argv : list string) (input : Result string) :
  Forall (fun x => Str.strip x = "") argv ->
  match input with
  | Raise _ => True
  | Ok line =>
      Urllib.all_chars (fun c => Str.isspace c || Ascii.eqb c ",") line = true
  end ->
  Main.get_urls argv input = Main.DEFAULT_URLS.
Proof.
  intros Hargv Hinput. unfold Main.get_urls.
  rewrite (stripped_nonblank_blank argv Hargv).
  destruct input as [line|e]; [| reflexivity].
  destruct (Str.truthy (Str.strip line)); [| reflexivity].
  rewrite stripped_nonblank_blank; [reflexivity |].
  assert (Hs : Urllib.all_chars (fun c => Str.isspace c || Ascii.eqb c ",")
                 (Str.strip line) = true).
  { unfold Str.strip. now apply all_chars_rstrip, all_chars_lstrip. }
  apply split_comma_blank in Hs.
  eapply List.Forall_impl; [| exact Hs].
  intros piece Hp. now apply strip_all_space.
Qed.

Lemma get_urls_command_line_first_witness :
  Main.get_urls ["  "; " https://example.com/a "; "https://example.com/b"]
    (Raise (Exception "EOF"))
  = ["https://example.com/a"; "https://example.com/b"].
Proof.
  refine (get_urls_command_line_first
            ["  "; " https://example.com/a "; "https://example.com/b"]
            " https://example.com/a " (Raise (Exception "EOF")) _ _).
  - right. left. reflexivity.
  - discriminate.
Defined.

Lemma get_urls_falls_back_to_defaults_witness :
  Main.get_urls ["  "] (Ok " , ,, ") = ["https://theresanaiforthat.com/"].
Proof.
  refine (get_urls_falls_back_to_defaults ["  "] (Ok " , ,, ") _ _).
  - constructor; [reflexivity | constructor].
  - reflexivity.
Defined.

(** ** The CSV rows *)

Lemma or_else_empty (s : string) : Str.or_else s "" = s.
Proof. now destruct s. Qed.

Section Csv.

Variable urlparse : string -> Result (string * string).
Variable robots_read : string -> nat -> Result RobotFileParser.
Variable requests_get : string -> nat -> Result Response.
Variable json_loads : string -> Result JSON.
Variable urljoin : string -> string -> Result string.
Variable BeautifulSoup : string -> Result Parser.Soup.

Abbreviation start_scraping :=
  (Main.start_scraping urlparse robots_read requests_get json_loads urljoin BeautifulSoup).

(** X28: the CSV of a run has one row per input URL, in input order, with
    that URL in its first column. *)
Theorem csv_rows_follow_input (urls : list string) (w : World) :
  List.map Main.row_url (Main.csv_rows (fst (start_scraping urls w))) = urls.
Proof.
  unfold Main.csv_rows. rewrite List.map_map.
  rewrite <- (start_scraping_urls urlparse robots_read requests_get json_loads
                urljoin BeautifulSoup urls w) at 2.
  apply List.map_ext. intros r. cbn [Main.csv_row Main.row_url].
  apply or_else_empty.
Qed.

(** X29: the CSV row of a record of a run whose status is not ok holds
    the URL and the status and nothing else: empty columns, zero CTAs. *)
Theorem csv_row_of_failure_is_blank (urls : list string) (w : World) (r : PageRecord) :
  In r (fst (start_scraping urls w)) ->
  status r <> "ok" ->
  Main.csv_row r = Main.mkCsvRow (url r) "" "" "" "" "" "" 0 (status r).
Proof.
  intros Hin Hst.
  destruct (start_scraping_records urlparse robots_read requests_get json_loads
              urljoin BeautifulSoup urls w r Hin) as (u & w' & ->).
  destruct (scrape_one_shape urlparse robots_read requests_get json_loads
              urljoin BeautifulSoup u w') as [[s Hs] | [html Hh]].
  - rewrite Hs. unfold Main.csv_row. cbn. now rewrite !or_else_empty.
  - rewrite Hh in *. revert Hst. unfold Parser.extract_structured_data.
    destruct (BeautifulSoup html); cbn [status].
    + intros H. now contradiction H.
    + intros _. unfold Main.csv_row. cbn. now rewrite !or_else_empty.
Qed.

End Csv.

Lemma csv_row_of_failure_is_blank_witness :
  Main.csv_row (Main.make_empty Sample.page_url "skipped")
  = Main.mkCsvRow Sample.page_url "" "" "" "" "" "" 0 "skipped".
Proof.
  refine (csv_row_of_failure_is_blank Sample.urlparse Sample.closed_robots
            Sample.down Sample.no_json Sample.no_urljoin Sample.empty_soup
            [Sample.page_url] Sample.empty_world
            (Main.make_empty Sample.page_url "skipped") _ _).
  - left. reflexivity.
  - discriminate.
Defined.

Lemma is_allowed_only_reads_robots_witness :
  _ROBOTS_CACHE Sample.cached_world !! Sample.origin = Some Sample.deny_all
  /\ _ROBOTS_CACHE
       (snd (Robots.is_allowed Sample.urlparse Sample.no_robots Sample.page_url
               default_agent Sample.cached_world))
     !! Sample.origin = Some Sample.deny_all.
Proof.
  split; [reflexivity |].
  apply (proj2 (proj2 (is_allowed_only_reads_robots Sample.urlparse Sample.no_robots
                         Sample.page_url default_agent Sample.cached_world))).
  reflexivity.
Defined.
